(** * ChatScaleHub: the message distribution core, embedded and verified

    The development follows the two TypeScript units of the repository:

    - [apps/server/src/services/socket.ts]: class [SocketService], its
      constructor (Redis relay subscription) and [initListeners]
      (the [join_room], [leave_room] and [event:message] handlers);
    - [apps/web/context/SocketProvider.tsx] and [apps/web/app/page.tsx]:
      [sendMessage], [onMessageReceived], [setTyping], the socket
      listeners of the provider and [handleSend] of the page.

    JavaScript values that cross the wire are an inductive type [JsVal];
    handlers are written in a small writer/exception monad whose output is
    the list of observable effects (console lines, socket emissions,
    broadcasts, relay publications).  The socket.io room table is a finite
    map from socket ids to the rooms each socket has joined. *)

From Stdlib Require Import ZArith Ascii Bool Lia.
From Stdlib Require String.
From stdpp Require Import base option list gmap strings.

Set Warnings "-register-all".

Local Open Scope Z_scope.

(* ===================================================================== *)
(** ** JavaScript runtime: strings, numbers, dates                        *)
(* ===================================================================== *)

Module Js.

(** Strings are sequences of code units; the model keeps the code units
    below 256, one [ascii] each. *)

Definition code (c : ascii) : Z := Z.of_nat (nat_of_ascii c).

(** [WhiteSpace] and [LineTerminator] code units below 256, the ones
    [String.prototype.trim] strips: TAB, LF, VT, FF, CR, SP, NBSP. *)
Definition is_space (c : ascii) : bool :=
  let n := code c in
  (n =? 9) || (n =? 10) || (n =? 11) || (n =? 12) || (n =? 13)
  || (n =? 32) || (n =? 160).

Fixpoint trimStart (s : string) : string :=
  match s with
  | EmptyString => EmptyString
  | String c rest => if is_space c then trimStart rest else s
  end.

(** [trimEnd] keeps a character when it is not a space or when something
    that is kept follows it. *)
Fixpoint trimEnd (s : string) : string :=
  match s with
  | EmptyString => EmptyString
  | String c rest =>
      match trimEnd rest with
      | EmptyString => if is_space c then EmptyString else String c EmptyString
      | kept => String c kept
      end
  end.

(** [s.trim()] *)
Definition trim (s : string) : string := trimEnd (trimStart s).

(** Empty or made of white space only. *)
Fixpoint blank (s : string) : bool :=
  match s with
  | EmptyString => true
  | String c rest => is_space c && blank rest
  end.

(** [s.slice(from, to)] for [0 <= from <= to]. *)
Fixpoint drop_chars (n : nat) (s : string) : string :=
  match n, s with
  | O, _ => s
  | S _, EmptyString => EmptyString
  | S k, String _ rest => drop_chars k rest
  end.

Fixpoint take_chars (n : nat) (s : string) : string :=
  match n, s with
  | O, _ => EmptyString
  | S _, EmptyString => EmptyString
  | S k, String c rest => String c (take_chars k rest)
  end.

Definition slice (s : string) (from to : nat) : string :=
  take_chars (to - from) (drop_chars from s).

(** Digits of [Number.prototype.toString(radix)]: 0-9 then a-z. *)
Definition digit_char (d : Z) : ascii :=
  if d <? 10 then ascii_of_nat (Z.to_nat (48 + d))
  else ascii_of_nat (Z.to_nat (87 + d)).

Fixpoint radix_digits (fuel : nat) (radix n : Z) (acc : string) : string :=
  let acc' := String (digit_char (n mod radix)) acc in
  match fuel with
  | O => acc'
  | S fuel' =>
      if n / radix =? 0 then acc' else radix_digits fuel' radix (n / radix) acc'
  end.

(** [n.toString(radix)] for an integer-valued number [n]; a number with
    [k] binary digits has at most [k] digits in any radix from 2 to 36. *)
Definition toStringRadix (radix n : Z) : string :=
  let mag := Z.abs n in
  let body := radix_digits (Z.to_nat (Z.log2 mag)) radix mag EmptyString in
  if n <? 0 then String "-"%char body else body.

(** Reading digits back, most significant first. *)
Definition digit_value (c : ascii) : Z :=
  if code c <? 58 then code c - 48 else code c - 87.

Fixpoint radix_value (radix : Z) (s : string) (acc : Z) : Z :=
  match s with
  | EmptyString => acc
  | String c rest => radix_value radix rest (acc * radix + digit_value c)
  end.

Definition toString36 (n : Z) : string := toStringRadix 36 n.
Definition toString10 (n : Z) : string := toStringRadix 10 n.

(** Left padding with zeros to [width] digits ([padStart(width, '0')]). *)
Fixpoint zeros (n : nat) : string :=
  match n with O => EmptyString | S k => String "0"%char (zeros k) end.

Definition pad (width : nat) (n : Z) : string :=
  let d := toString10 n in
  zeros (width - String.length d) +:+ d.

(** [Date.prototype.toISOString] on a time value [t] (milliseconds since
    the epoch, UTC): the proleptic Gregorian calendar date of day
    [t / 86400000], then the time within the day. *)
Definition msPerDay : Z := 86400000.

Record CivilDate := { year : Z; month : Z; day : Z }.

Definition civil_from_days (days : Z) : CivilDate :=
  let z := days + 719468 in
  let era := z / 146097 in
  let doe := z - era * 146097 in
  let yoe := (doe - doe / 1460 + doe / 36524 - doe / 146096) / 365 in
  let doy := doe - (365 * yoe + yoe / 4 - yoe / 100) in
  let mp := (5 * doy + 2) / 153 in
  let d := doy - (153 * mp + 2) / 5 + 1 in
  let m := if mp <? 10 then mp + 3 else mp - 9 in
  let y := yoe + era * 400 in
  {| year := if m <=? 2 then y + 1 else y; month := m; day := d |}.

Definition year_string (y : Z) : string :=
  if (0 <=? y) && (y <=? 9999) then pad 4 y
  else if y <? 0 then "-" +:+ pad 6 (- y)
  else "+" +:+ pad 6 y.

Definition toISOString (t : Z) : string :=
  let date := civil_from_days (t / msPerDay) in
  let ms := t mod msPerDay in
  year_string (year date) +:+ "-" +:+ pad 2 (month date) +:+ "-"
    +:+ pad 2 (day date) +:+ "T"
    +:+ pad 2 (ms / 3600000) +:+ ":"
    +:+ pad 2 ((ms / 60000) mod 60) +:+ ":"
    +:+ pad 2 ((ms / 1000) mod 60) +:+ "."
    +:+ pad 3 (ms mod 1000) +:+ "Z".

(** *** Values

    What socket.io hands to a listener declared [msg: any], and what
    [JSON.parse] returns.  Numbers are the integer-valued ones; objects are
    association lists read by the first binding of a key. *)
Inductive JsVal : Type :=
| JUndefined
| JNull
| JBool (b : bool)
| JNum (n : Z)
| JStr (s : string)
| JArr (items : list JsVal)
| JObj (fields : list (string * JsVal)).

Inductive JsError : Type :=
| TypeError (message : string)
| SyntaxError (message : string)
| Error (message : string).

Definition error_message (e : JsError) : string :=
  match e with TypeError m | SyntaxError m | Error m => m end.

(** Result of evaluating an expression that may throw. *)
Inductive Res (A : Type) : Type :=
| Ok (a : A)
| Throw (e : JsError).
Arguments Ok {A} a.
Arguments Throw {A} e.

Definition res_bind {A B} (r : Res A) (k : A -> Res B) : Res B :=
  match r with Ok a => k a | Throw e => Throw e end.

(** [typeof v === 'string'] *)
Definition is_string (v : JsVal) : bool :=
  match v with JStr _ => true | _ => false end.

(** ToBoolean *)
Definition truthy (v : JsVal) : bool :=
  match v with
  | JUndefined | JNull => false
  | JBool b => b
  | JNum n => negb (n =? 0)
  | JStr s => negb (String.eqb s "")
  | JArr _ | JObj _ => true
  end.

Definition nullish (v : JsVal) : bool :=
  match v with JUndefined | JNull => true | _ => false end.

(** [a || b] and [a ?? b] with a right operand that has no effect. *)
Definition or_else (a b : JsVal) : JsVal := if truthy a then a else b.
Definition coalesce (a b : JsVal) : JsVal := if nullish a then b else a.

Fixpoint assoc (key : string) (fields : list (string * JsVal)) : JsVal :=
  match fields with
  | [] => JUndefined
  | (k, v) :: rest => if String.eqb k key then v else assoc key rest
  end.

(** [v.key] for a key that no built-in prototype defines (all the keys the
    program reads are such): reading through [undefined] or [null] throws
    a [TypeError], a primitive or an array has no such property, an
    object answers with its own binding. *)
Definition get (v : JsVal) (key : string) : Res JsVal :=
  match v with
  | JUndefined =>
      Throw (TypeError ("Cannot read properties of undefined (reading '" +:+ key +:+ "')"))
  | JNull =>
      Throw (TypeError ("Cannot read properties of null (reading '" +:+ key +:+ "')"))
  | JObj fields => Ok (assoc key fields)
  | _ => Ok JUndefined
  end.

(** SameValueZero on primitives, the equality of [Set] and [Map] keys.
    Two arrays or objects that arrived in different payloads are never the
    same key. *)
Definition same_key (a b : JsVal) : bool :=
  match a, b with
  | JUndefined, JUndefined | JNull, JNull => true
  | JBool x, JBool y => Bool.eqb x y
  | JNum x, JNum y => x =? y
  | JStr x, JStr y => String.eqb x y
  | _, _ => false
  end.

(** The JSON functions of the runtime.  [JSON_parse] answers [None] where
    [JSON.parse] throws its [SyntaxError]. *)
Class JsonCodec : Type := {
  JSON_parse : string -> option JsVal;
  JSON_stringify : JsVal -> string
}.

Definition parse `{JsonCodec} (text : string) : Res JsVal :=
  match JSON_parse text with
  | Some v => Ok v
  | None => Throw (SyntaxError "Unexpected token in JSON")
  end.

End Js.

(* ===================================================================== *)
(** ** A JSON codec to run the model with                                 *)
(* ===================================================================== *)

(** An instance of [JsonCodec] for JSON texts whose numerals are integers
    (no fraction, no exponent) and whose string escapes stay below code
    unit 256.  The theorems below hold for every codec; this one evaluates
    them on concrete payloads. *)
Module Json.
Import Js.

Definition is_ws (c : ascii) : bool :=
  let n := code c in (n =? 32) || (n =? 9) || (n =? 10) || (n =? 13).

Fixpoint skip_ws (s : string) : string :=
  match s with
  | EmptyString => EmptyString
  | String c rest => if is_ws c then skip_ws rest else s
  end.

Fixpoint strip_prefix (p s : string) : option string :=
  match p, s with
  | EmptyString, _ => Some s
  | String a p', String b s' => if Ascii.eqb a b then strip_prefix p' s' else None
  | String _ _, EmptyString => None
  end.

Definition is_digit (c : ascii) : bool := (48 <=? code c) && (code c <=? 57).

Definition hex_value (c : ascii) : option Z :=
  let n := code c in
  if (48 <=? n) && (n <=? 57) then Some (n - 48)
  else if (97 <=? n) && (n <=? 102) then Some (n - 87)
  else if (65 <=? n) && (n <=? 70) then Some (n - 55)
  else None.

Definition char_of (n : Z) : ascii := ascii_of_nat (Z.to_nat n).

Definition hex4 (a b c d : ascii) : option ascii :=
  match hex_value a, hex_value b, hex_value c, hex_value d with
  | Some x, Some y, Some z, Some w =>
      let n := ((x * 16 + y) * 16 + z) * 16 + w in
      if n <? 256 then Some (char_of n) else None
  | _, _, _, _ => None
  end.

Definition simple_escape (c : ascii) : option ascii :=
  let n := code c in
  if (n =? 34) || (n =? 92) || (n =? 47) then Some c
  else if n =? 98 then Some (char_of 8)
  else if n =? 102 then Some (char_of 12)
  else if n =? 110 then Some (char_of 10)
  else if n =? 114 then Some (char_of 13)
  else if n =? 116 then Some (char_of 9)
  else None.

Fixpoint rev_onto (s acc : string) : string :=
  match s with
  | EmptyString => acc
  | String c rest => rev_onto rest (String c acc)
  end.

(** The characters of a string literal after its opening quote; [acc]
    holds what was read, last character first. *)
Fixpoint parse_chars (s acc : string) : option (string * string) :=
  match s with
  | EmptyString => None
  | String c rest =>
      if code c =? 34 then Some (rev_onto acc EmptyString, rest)
      else if code c =? 92 then
        match rest with
        | EmptyString => None
        | String e rest' =>
            match simple_escape e with
            | Some x => parse_chars rest' (String x acc)
            | None =>
                if code e =? 117 then
                  match rest' with
                  | String h1 (String h2 (String h3 (String h4 rest''))) =>
                      match hex4 h1 h2 h3 h4 with
                      | Some x => parse_chars rest'' (String x acc)
                      | None => None
                      end
                  | _ => None
                  end
                else None
            end
        end
      else if code c <? 32 then None
      else parse_chars rest (String c acc)
  end.

Fixpoint parse_digits (s : string) (acc : Z) : Z * string :=
  match s with
  | String c rest => if is_digit c then parse_digits rest (acc * 10 + (code c - 48)) else (acc, s)
  | EmptyString => (acc, s)
  end.

Definition starts_fraction (s : string) : bool :=
  match s with
  | String c _ => (code c =? 46) || (code c =? 101) || (code c =? 69)
  | EmptyString => false
  end.

(** [int] of the JSON grammar: [0] or a digit from 1 to 9 and more digits. *)
Definition parse_int (s : string) : option (Z * string) :=
  match s with
  | String c rest =>
      if code c =? 48 then (if starts_fraction rest then None else Some (0, rest))
      else if is_digit c then
        let '(n, rest') := parse_digits s 0 in
        if starts_fraction rest' then None else Some (n, rest')
      else None
  | EmptyString => None
  end.

(** An object keeps one binding per key: a repeated key takes the later
    value at the place of the first. *)
Fixpoint set_field (k : string) (v : JsVal) (fields : list (string * JsVal))
  : list (string * JsVal) :=
  match fields with
  | [] => [(k, v)]
  | (k', v') :: rest =>
      if String.eqb k' k then (k', v) :: rest else (k', v') :: set_field k v rest
  end.

Fixpoint parse_value (fuel : nat) (s : string) : option (JsVal * string) :=
  match fuel with
  | O => None
  | S fuel' =>
      match skip_ws s with
      | EmptyString => None
      | String c rest =>
          let n := code c in
          if n =? 34 then
            match parse_chars rest EmptyString with
            | Some (str, rest') => Some (JStr str, rest')
            | None => None
            end
          else if n =? 91 then
            match skip_ws rest with
            | String c' rest' =>
                if code c' =? 93 then Some (JArr [], rest')
                else parse_elements fuel' rest []
            | EmptyString => None
            end
          else if n =? 123 then
            match skip_ws rest with
            | String c' rest' =>
                if code c' =? 125 then Some (JObj [], rest')
                else parse_members fuel' rest []
            | EmptyString => None
            end
          else if n =? 45 then
            match parse_int rest with
            | Some (k, rest') => Some (JNum (- k), rest')
            | None => None
            end
          else if is_digit c then
            match parse_int (String c rest) with
            | Some (k, rest') => Some (JNum k, rest')
            | None => None
            end
          else
            match strip_prefix "null" (String c rest) with
            | Some rest' => Some (JNull, rest')
            | None =>
                match strip_prefix "true" (String c rest) with
                | Some rest' => Some (JBool true, rest')
                | None =>
                    match strip_prefix "false" (String c rest) with
                    | Some rest' => Some (JBool false, rest')
                    | None => None
                    end
                end
            end
      end
  end
with parse_elements (fuel : nat) (s : string) (acc : list JsVal)
  : option (JsVal * string) :=
  match fuel with
  | O => None
  | S fuel' =>
      match parse_value fuel' s with
      | Some (v, rest) =>
          match skip_ws rest with
          | String c rest' =>
              if code c =? 44 then parse_elements fuel' rest' (acc ++ [v])
              else if code c =? 93 then Some (JArr (acc ++ [v]), rest')
              else None
          | EmptyString => None
          end
      | None => None
      end
  end
with parse_members (fuel : nat) (s : string) (acc : list (string * JsVal))
  : option (JsVal * string) :=
  match fuel with
  | O => None
  | S fuel' =>
      match skip_ws s with
      | String q rest =>
          if code q =? 34 then
            match parse_chars rest EmptyString with
            | Some (k, rest1) =>
                match skip_ws rest1 with
                | String colon rest2 =>
                    if code colon =? 58 then
                      match parse_value fuel' rest2 with
                      | Some (v, rest3) =>
                          match skip_ws rest3 with
                          | String c rest4 =>
                              if code c =? 44 then parse_members fuel' rest4 (set_field k v acc)
                              else if code c =? 125 then Some (JObj (set_field k v acc), rest4)
                              else None
                          | EmptyString => None
                          end
                      | None => None
                      end
                    else None
                | EmptyString => None
                end
            | None => None
            end
          else None
      | EmptyString => None
      end
  end.

(** The whole text is one value between optional white space. *)
Definition parse_text (s : string) : option JsVal :=
  match parse_value (2 * String.length s + 2) s with
  | Some (v, rest) =>
      match skip_ws rest with
      | EmptyString => Some v
      | String _ _ => None
      end
  | None => None
  end.

(** Serialisation. *)
Definition hex_digit (n : Z) : ascii := digit_char n.

Definition escape_char (c : ascii) : string :=
  let n := code c in
  if n =? 34 then "\" +:+ String c EmptyString
  else if n =? 92 then "\\"
  else if n =? 8 then "\b"
  else if n =? 12 then "\f"
  else if n =? 10 then "\n"
  else if n =? 13 then "\r"
  else if n =? 9 then "\t"
  else if n <? 32 then
    "\u00" +:+ String (hex_digit (n / 16)) (String (hex_digit (n mod 16)) EmptyString)
  else String c EmptyString.

Fixpoint escape (s : string) : string :=
  match s with
  | EmptyString => EmptyString
  | String c rest => escape_char c +:+ escape rest
  end.

Definition quote (s : string) : string :=
  String (char_of 34) (escape s) +:+ String (char_of 34) EmptyString.

(** [None] is the [undefined] that [JSON.stringify] answers for
    [undefined]: such a member of an object is left out, such an element
    of an array is written [null]. *)
Fixpoint stringify (v : JsVal) : option string :=
  match v with
  | JUndefined => None
  | JNull => Some "null"
  | JBool b => Some (if b then "true" else "false")
  | JNum n => Some (toString10 n)
  | JStr s => Some (quote s)
  | JArr items =>
      Some ("[" +:+
        (fix elements (l : list JsVal) (first : bool) : string :=
           match l with
           | [] => ""
           | x :: rest =>
               (if first then "" else ",")
                 +:+ default "null" (stringify x) +:+ elements rest false
           end) items true +:+ "]")
  | JObj fields =>
      Some ("{" +:+
        (fix members (l : list (string * JsVal)) (first : bool) : string :=
           match l with
           | [] => ""
           | (k, x) :: rest =>
               match stringify x with
               | None => members rest first
               | Some sx =>
                   (if first then "" else ",")
                     +:+ quote k +:+ ":" +:+ sx +:+ members rest false
               end
           end) fields true +:+ "}")
  end.

#[export] Instance codec : JsonCodec := {|
  JSON_parse := parse_text;
  JSON_stringify := fun v => default "undefined" (stringify v)
|}.

End Json.

(* ===================================================================== *)
(** ** Effects and the handler monad                                      *)
(* ===================================================================== *)

Module Eff.
Import Js.

Inductive Level : Type := LogInfo | LogWarn | LogError.

(** Second argument of a console call. *)
Inductive LogArg : Type :=
| NoArg
| ArgVal (v : JsVal)
| ArgStr (s : string)
| ArgErr (e : JsError).

(** What a handler does to the outside world, in program order. *)
Inductive Effect : Type :=
| Console (lvl : Level) (text : string) (arg : LogArg)
| SocketJoin (sid : string) (room : JsVal)          (* socket.join(room) *)
| SocketLeave (sid : string) (room : JsVal)         (* socket.leave(room) *)
| SocketEmit (sid event : string) (payload : JsVal) (* socket.emit(event, payload) *)
| IoEmit (event : string) (payload : JsVal)         (* io.emit(event, payload) *)
| IoToEmit (room : JsVal) (event : string) (payload : JsVal)
                                                    (* io.to(room).emit(event, payload) *)
| Publish (channel message : string).               (* pub.publish(channel, message), resolved *)

(** A computation writes effects and either returns or throws; what was
    written before a throw stays written. *)
Definition M (A : Type) : Type := list Effect * Res A.

Definition ret {A} (a : A) : M A := ([], Ok a).

Definition bind {A B} (m : M A) (k : A -> M B) : M B :=
  match m with
  | (w, Ok a) => let '(w', r) := k a in (w ++ w', r)
  | (w, Throw e) => (w, Throw e)
  end.

Definition tell (e : Effect) : M unit := ([e], Ok tt).
Definition throw {A} (e : JsError) : M A := ([], Throw e).
Definition lift {A} (r : Res A) : M A := ([], r).

(** [try { body } catch (err) { handler }] *)
Definition try_catch {A} (body : M A) (handler : JsError -> M A) : M A :=
  match body with
  | (w, Ok a) => (w, Ok a)
  | (w, Throw e) => let '(w', r) := handler e in (w ++ w', r)
  end.

Definition effects {A} (m : M A) : list Effect := fst m.
Definition outcome {A} (m : M A) : Res A := snd m.

End Eff.

Declare Scope js_scope.
Delimit Scope js_scope with js.
Notation "x <- m ;; k" := (Eff.bind m (fun x => k))
  (at level 100, m at next level, right associativity) : js_scope.
Notation "m ;; k" := (Eff.bind m (fun _ => k))
  (at level 100, right associativity) : js_scope.
Notation "x <-? r ;; k" := (Js.res_bind r (fun x => k))
  (at level 100, r at next level, right associativity) : js_scope.

(* ===================================================================== *)
(** ** The server: [SocketService]                                        *)
(* ===================================================================== *)

Module Server.
Import Js Eff.
Local Open Scope js_scope.

(** What a handler reads from its surroundings while it runs. *)
Record Env : Type := {
  socket_id : string;               (* socket.id *)
  Date_now : Z;                     (* Date.now() *)
  new_Date : Z;                     (* time value of new Date() *)
  publish_outcome : option JsError  (* the promise of pub.publish: None resolves, Some e rejects *)
}.

(** The socket.io room table of one process: for each connected socket,
    the rooms it is in.  A socket is in the room named by its own id from
    the moment it connects. *)
Abbreviation Table := (gmap string (list JsVal)).

Record Service : Type := {
  pub : bool;        (* this.pub is a Redis client, not undefined *)
  sockets : Table
}.

Definition with_sockets (srv : Service) (t : Table) : Service :=
  {| pub := pub srv; sockets := t |}.

(** *** Rooms *)

(** [socket.join] and [io.to] accept one room or an array of rooms. *)
Definition room_keys (room : JsVal) : list JsVal :=
  match room with JArr items => items | _ => [room] end.

Definition in_room (rooms : list JsVal) (key : JsVal) : bool :=
  existsb (same_key key) rooms.

Definition add_room (rooms : list JsVal) (key : JsVal) : list JsVal :=
  if in_room rooms key then rooms else rooms ++ [key].

Definition del_room (rooms : list JsVal) (key : JsVal) : list JsVal :=
  filter (fun k => same_key key k = false) rooms.

(** A broadcast operator with no room addresses every socket. *)
Definition addressed (target : list JsVal) (rooms : list JsVal) : bool :=
  match target with
  | [] => true
  | _ => existsb (in_room rooms) target
  end.

Definition apply_effect (t : Table) (e : Effect) : Table :=
  match e with
  | SocketJoin sid room => alter (fun rooms => foldl add_room rooms (room_keys room)) sid t
  | SocketLeave sid room => alter (fun rooms => del_room rooms room) sid t
  | _ => t
  end.

Record Delivery : Type := {
  to : string;
  event : string;
  payload : JsVal
}.

Definition members (t : Table) (target : list JsVal) : list string :=
  (filter (fun entry => addressed target entry.2 = true) (map_to_list t)).*1.

Definition recipients (t : Table) (e : Effect) : list string :=
  match e with
  | SocketEmit sid _ _ => if decide (is_Some (t !! sid)) then [sid] else []
  | IoEmit _ _ => members t []
  | IoToEmit room _ _ => members t (room_keys room)
  | _ => []
  end.

Definition emitted (e : Effect) : option (string * JsVal) :=
  match e with
  | SocketEmit _ ev p | IoEmit ev p | IoToEmit _ ev p => Some (ev, p)
  | _ => None
  end.

Definition deliveries (t : Table) (e : Effect) : list Delivery :=
  match emitted e with
  | Some (ev, p) => (fun sid => {| to := sid; event := ev; payload := p |}) <$> recipients t e
  | None => []
  end.

(** Effects in order: each one is delivered against the table the
    earlier ones left. *)
Fixpoint observe (t : Table) (effs : list Effect) : Table * list Delivery :=
  match effs with
  | [] => (t, [])
  | e :: rest =>
      let '(t', ds) := observe (apply_effect t e) rest in
      (t', deliveries t e ++ ds)
  end.

Section Handlers.
Context `{JsonCodec}.

(** *** constructor *)

Definition constructor (USE_REDIS : bool) (redis_init : Res unit) : M Service :=
  tell (Console LogInfo
          ("Initializing Socket Service (USE_REDIS="
             +:+ (if USE_REDIS then "true" else "false") +:+ ")...") NoArg) ;;
  if USE_REDIS then
    try_catch
      (lift redis_init ;;
       tell (Console LogInfo "Redis adapter initialized (pub/sub configured)." NoArg) ;;
       ret {| pub := true; sockets := ∅ |})
      (fun err =>
         tell (Console LogWarn
                 "Failed to initialize Redis adapter — falling back to local-only."
                 (ArgErr err)) ;;
         ret {| pub := false; sockets := ∅ |})
  else
    tell (Console LogInfo "Running in local-only socket mode (no Redis)." NoArg) ;;
    ret {| pub := false; sockets := ∅ |}.

(** [this.sub.on('message', (channel, message) => ...)] *)
Definition on_sub_message (channel message : string) : M unit :=
  if String.eqb channel "Messages" then
    try_catch
      (parsed <- lift (parse message) ;;
       tell (IoEmit "message" parsed))
      (fun err =>
         tell (Console LogWarn "[redis sub] invalid JSON on Messages channel" (ArgErr err)))
  else ret tt.

(** *** initListeners *)

(** [socket.on('join_room', p => ...)]; the condition is [p && p.roomId]. *)
Definition on_join_room (sid : string) (p : JsVal) : M unit :=
  roomId <- lift (if truthy p then get p "roomId" else Ok p) ;;
  if truthy roomId then
    tell (SocketJoin sid roomId) ;;
    tell (SocketEmit sid "joined_room" (JObj [("roomId", roomId)]))
  else ret tt.

(** [socket.on('leave_room', p => ...)] *)
Definition on_leave_room (sid : string) (p : JsVal) : M unit :=
  roomId <- lift (if truthy p then get p "roomId" else Ok p) ;;
  if truthy roomId then tell (SocketLeave sid roomId) else ret tt.

(** ['tmp_' + Date.now().toString(36)] *)
Definition tmp_id (env : Env) : JsVal := JStr ("tmp_" +:+ toString36 (Date_now env)).

(** The [messageObject] of the [event:message] handler. *)
Definition messageObject (env : Env) (msg : JsVal) : Res JsVal :=
  if is_string msg then
    Ok (JObj [("id", tmp_id env);
              ("senderId", JStr (socket_id env));
              ("text", msg);
              ("createdAt", JStr (toISOString (new_Date env)))])
  else
    id <-? get msg "id" ;;
    conversationId <-? get msg "conversationId" ;;
    senderId <-? get msg "senderId" ;;
    senderName <-? get msg "senderName" ;;
    text <-? get msg "text" ;;
    text' <-? (if nullish text
               then message <-? get msg "message" ;; Ok (coalesce message (JStr ""))
               else Ok text) ;;
    createdAt <-? get msg "createdAt" ;;
    Ok (JObj [("id", or_else id (tmp_id env));
              ("conversationId", conversationId);
              ("senderId", or_else senderId (JStr (socket_id env)));
              ("senderName", senderName);
              ("text", text');
              ("createdAt", or_else createdAt (JStr (toISOString (new_Date env))))]).

(** [await this.pub.publish(channel, message)] *)
Definition publish (env : Env) (channel message : string) : M unit :=
  match publish_outcome env with
  | None => tell (Publish channel message)
  | Some e => throw e
  end.

(** [socket.on('event:message', async msg => ...)] *)
Definition on_event_message (srv : Service) (env : Env) (msg : JsVal) : M unit :=
  try_catch
    (obj <- lift (messageObject env msg) ;;
     tell (Console LogInfo "Received event:message:" (ArgVal obj)) ;;
     conversationId <- lift (get obj "conversationId") ;;
     (if truthy conversationId
      then tell (IoToEmit conversationId "message" obj)
      else tell (IoEmit "message" obj)) ;;
     if pub srv then
       try_catch
         (publish env "Messages" (JSON_stringify obj))
         (fun pubErr =>
            tell (Console LogWarn "[redis pub] publish failed" (ArgStr (error_message pubErr))))
     else ret tt)
    (fun err => tell (Console LogError "Error handling event:message" (ArgErr err))).

(** *** Events of one process and their dispatch *)

Inductive Event : Type :=
| Connection (sid : string)
| Inbound (sid name : string) (payload : JsVal)  (* an event sent by the client of socket sid *)
| Disconnect (sid reason : string)
| SocketError (sid : string) (err : JsError)
| RedisMessage (channel message : string)        (* the subscription delivers a message *)
| RedisError (on_pub : bool) (err : JsError).

(** The listener registered for an inbound event name, if any.  An
    event a client names [error] reaches the [socket.on('error', ...)]
    listener, which logs it. *)
Definition listener (srv : Service) (env : Env) (sid name : string) (p : JsVal) : M unit :=
  if String.eqb name "join_room" then on_join_room sid p
  else if String.eqb name "leave_room" then on_leave_room sid p
  else if String.eqb name "event:message" then on_event_message srv env p
  else if String.eqb name "error" then tell (Console LogError "Socket error" (ArgVal p))
  else ret tt.

Definition handle (srv : Service) (env : Env) (ev : Event) : M unit :=
  match ev with
  | Connection sid =>
      tell (Console LogInfo ("New client connected: " +:+ sid) NoArg)
  | Inbound sid name p =>
      match sockets srv !! sid with
      | Some _ => listener srv env sid name p
      | None => ret tt
      end
  | Disconnect sid reason =>
      match sockets srv !! sid with
      | Some _ => tell (Console LogInfo ("Socket disconnected " +:+ sid +:+ ":") (ArgStr reason))
      | None => ret tt
      end
  | SocketError sid err =>
      match sockets srv !! sid with
      | Some _ => tell (Console LogError "Socket error" (ArgErr err))
      | None => ret tt
      end
  | RedisMessage channel message =>
      if pub srv then on_sub_message channel message else ret tt
  | RedisError on_pub err =>
      if pub srv then
        tell (Console LogError (if on_pub then "[redis pub] error" else "[redis sub] error")
                (ArgStr (error_message err)))
      else ret tt
  end.

(** What socket.io itself does to the table before the listeners run. *)
Definition transport (t : Table) (ev : Event) : Table :=
  match ev with
  | Connection sid => <[sid := [JStr sid]]> t
  | Disconnect sid _ => delete sid t
  | _ => t
  end.

Record Outcome : Type := {
  service : Service;
  trace : list Effect;
  delivered : list Delivery;
  result : Res unit
}.

Definition step (srv : Service) (env : Env) (ev : Event) : Outcome :=
  let m := handle srv env ev in
  let '(t, ds) := observe (transport (sockets srv) ev) (effects m) in
  {| service := with_sockets srv t; trace := effects m; delivered := ds; result := outcome m |}.

(** A sequence of events, each with the surroundings it runs in. *)
Fixpoint run (srv : Service) (steps : list (Env * Event))
  : Service * list Effect * list Delivery :=
  match steps with
  | [] => (srv, [], [])
  | (env, ev) :: rest =>
      let o := step srv env ev in
      let '(srv', effs, ds) := run (service o) rest in
      (srv', trace o ++ effs, delivered o ++ ds)
  end.

End Handlers.
End Server.


(* ===================================================================== *)
(** ** Several processes on one broker                                    *)
(* ===================================================================== *)

Module Cluster.
Import Js Eff.

Section Relay.
Context `{JsonCodec}.

(** The processes, every publication the broker accepted (oldest first),
    the publications it has not handed to the subscribers yet, and what
    each process delivered to its own sockets.  The broadcast packets the
    socket.io Redis adapter exchanges between processes travel on channels
    of their own, not on [Messages], and are not part of this state. *)
Record State : Type := {
  instances : list Server.Service;
  published : list (string * string);
  in_flight : list (string * string);
  inbox : list (nat * Server.Delivery)
}.

Inductive Step : Type :=
| Local (i : nat) (env : Server.Env) (ev : Server.Event)
    (* process i handles an event *)
| Relay (env : Server.Env).
    (* the broker hands its oldest undelivered publication to the subscribers *)

Definition publications (effs : list Effect) : list (string * string) :=
  omap (fun e => match e with Publish c m => Some (c, m) | _ => None end) effs.

Definition tagged (i : nat) (ds : list Server.Delivery) : list (nat * Server.Delivery) :=
  (fun d => (i, d)) <$> ds.

(** Every process from index [i] on receives the publication on its
    subscription. *)
Fixpoint relay_from (i : nat) (env : Server.Env) (channel message : string)
    (srvs : list Server.Service)
  : list Server.Service * list (string * string) * list (nat * Server.Delivery) :=
  match srvs with
  | [] => ([], [], [])
  | srv :: rest =>
      let o := Server.step srv env (Server.RedisMessage channel message) in
      let '(rest', pubs, ds) := relay_from (S i) env channel message rest in
      (Server.service o :: rest',
       publications (Server.trace o) ++ pubs,
       tagged i (Server.delivered o) ++ ds)
  end.

Definition step (c : State) (s : Step) : State :=
  match s with
  | Local i env ev =>
      match instances c !! i with
      | None => c
      | Some srv =>
          let o := Server.step srv env ev in
          {| instances := <[i := Server.service o]> (instances c);
             published := published c ++ publications (Server.trace o);
             in_flight := in_flight c ++ publications (Server.trace o);
             inbox := inbox c ++ tagged i (Server.delivered o) |}
      end
  | Relay env =>
      match in_flight c with
      | [] => c
      | (channel, message) :: waiting =>
          let '(srvs, pubs, ds) := relay_from 0 env channel message (instances c) in
          {| instances := srvs;
             published := published c ++ pubs;
             in_flight := waiting ++ pubs;
             inbox := inbox c ++ ds |}
      end
  end.

Definition run (c : State) (steps : list Step) : State := foldl step c steps.

Definition is_local (s : Step) : bool :=
  match s with Local _ _ _ => true | Relay _ => false end.

End Relay.
End Cluster.

(* ===================================================================== *)
(** ** The client: [SocketProvider] and the chat page                     *)
(* ===================================================================== *)

Module Client.
Import Js.

Record Message : Type := {
  id : string;
  conversationId : option string;
  senderId : string;
  senderName : option string;
  text : string;
  createdAt : string
}.

(** The object socket.io sends for a [Message]; an optional field that is
    not set is not sent. *)
Definition optional (key : string) (v : option string) : list (string * JsVal) :=
  match v with Some s => [(key, JStr s)] | None => [] end.

Definition encode (m : Message) : JsVal :=
  JObj ([("id", JStr (id m))] ++ optional "conversationId" (conversationId m)
        ++ [("senderId", JStr (senderId m))] ++ optional "senderName" (senderName m)
        ++ [("text", JStr (text m)); ("createdAt", JStr (createdAt m))]).

Definition as_string (v : JsVal) : option string :=
  match v with JStr s => Some s | _ => None end.

(** [payload as Message], for a payload that has the shape of a
    [Message]: the four required fields are strings. *)
Definition decode (payload : JsVal) : option Message :=
  match payload with
  | JObj fields =>
      match as_string (assoc "id" fields), as_string (assoc "senderId" fields),
            as_string (assoc "text" fields), as_string (assoc "createdAt" fields) with
      | Some i, Some s, Some t, Some c =>
          Some {| id := i;
                  conversationId := as_string (assoc "conversationId" fields);
                  senderId := s;
                  senderName := as_string (assoc "senderName" fields);
                  text := t;
                  createdAt := c |}
      | _, _, _, _ => None
      end
  | _ => None
  end.

(** The socket object [s]; [connected] is the property socket.io keeps. *)
Record Socket : Type := { s_connected : bool }.

(** State of [SocketProvider]. *)
Record Provider : Type := {
  socket : option Socket;
  messages : list Message;
  connected : bool;
  typingUsers : list string;
  onlineUsers : gset string;
  currentUserId : string;
  currentUserName : string
}.

Record Clock : Type := {
  Date_now : Z;      (* Date.now() *)
  new_Date : Z       (* time value of new Date() *)
}.

Record Env : Type := {
  clock : Clock;          (* read by the first listener of an event, or by the action *)
  clock' : Clock;         (* read by the second listener of the same event *)
  Math_random36 : string  (* Math.random().toString(36) *)
}.

Inductive Out : Type :=
| Emit (event : string) (payload : JsVal)   (* socket.emit(event, payload) *)
| Warn (text : string)
| Log (text : string)
| Err (text : string)
| Reload.                                   (* window.location.reload() *)

Definition set_messages (st : Provider) (ms : list Message) : Provider :=
  {| socket := socket st; messages := ms; connected := connected st;
     typingUsers := typingUsers st; onlineUsers := onlineUsers st;
     currentUserId := currentUserId st; currentUserName := currentUserName st |}.

Definition set_connected (st : Provider) (sock : option Socket) (b : bool) : Provider :=
  {| socket := sock; messages := messages st; connected := b;
     typingUsers := typingUsers st; onlineUsers := onlineUsers st;
     currentUserId := currentUserId st; currentUserName := currentUserName st |}.

Definition set_typingUsers (st : Provider) (names : list string) : Provider :=
  {| socket := socket st; messages := messages st; connected := connected st;
     typingUsers := names; onlineUsers := onlineUsers st;
     currentUserId := currentUserId st; currentUserName := currentUserName st |}.

Definition set_onlineUsers (st : Provider) (users : gset string) : Provider :=
  {| socket := socket st; messages := messages st; connected := connected st;
     typingUsers := typingUsers st; onlineUsers := users;
     currentUserId := currentUserId st; currentUserName := currentUserName st |}.

(** [!socket || !socket.connected] *)
Definition offline (st : Provider) : bool :=
  match socket st with
  | None => true
  | Some s => negb (s_connected s)
  end.

Definition identity (st : Provider) : JsVal :=
  JObj [("userId", JStr (currentUserId st)); ("username", JStr (currentUserName st))].

(** [setTyping] *)
Definition setTyping (st : Provider) (isTyping : bool) : list Out :=
  if offline st then []
  else if isTyping then [Emit "user:typing" (identity st)]
  else [Emit "user:stop-typing" (identity st)].

(** ['tmp_' + Date.now().toString(36) + '_' + Math.random().toString(36).slice(2, 5)] *)
Definition tempId (env : Env) : string :=
  "tmp_" +:+ toString36 (Date_now (clock env)) +:+ "_" +:+ slice (Math_random36 env) 2 5.

Definition draft (st : Provider) (env : Env) (body : string) : Message :=
  {| id := tempId env;
     conversationId := None;
     senderId := currentUserId st;
     senderName := Some (currentUserName st);
     text := body;
     createdAt := toISOString (new_Date (clock env)) |}.

(** [sendMessage] *)
Definition sendMessage (st : Provider) (env : Env) (body : string) : Provider * list Out :=
  if offline st then (st, [Warn "Socket not connected, cannot send message"])
  else
    let msg := draft st env body in
    (set_messages st (messages st ++ [msg]), [Emit "event:message" (encode msg)]).

(** The updater of [onMessageReceived]: replace by id, else append. *)
Definition reconcile (prev : list Message) (msg : Message) : list Message :=
  if existsb (fun m => String.eqb (id m) (id msg)) prev
  then map (fun m => if String.eqb (id m) (id msg) then msg else m) prev
  else prev ++ [msg].

Definition onMessageReceived (st : Provider) (msg : Message) : Provider :=
  set_messages st (reconcile (messages st) msg).

(** The system line of the [user:joined] and [user:left] listeners. *)
Definition system_message (c : Clock) (body : string) : Message :=
  {| id := "system_" +:+ toString10 (Date_now c);
     conversationId := None;
     senderId := "system";
     senderName := None;
     text := body;
     createdAt := toISOString (new_Date c) |}.

Definition include (names : list string) (name : string) : list string :=
  if existsb (String.eqb name) names then names else names ++ [name].

Definition exclude (names : list string) (name : string) : list string :=
  filter (fun n => String.eqb n name = false) names.

(** Events the socket raises on the client.  The payloads have the types
    the listeners declare: a user id for [user:joined] and [user:left]
    (destructuring [{ userId, username }] out of a string gives
    [undefined] twice), a pair of strings for the typing events. *)
Inductive Event : Type :=
| Mount                         (* the effect runs: io(url), setSocket(s) *)
| Unmount                       (* its cleanup *)
| Connect (sid : string)
| ConnectError
| Disconnected (reason : string)
| OnMessage (msg : Message)
| OnError
| UserJoined (userId : string)
| UserLeft (userId : string)
| UserTyping (userId username : string)
| UserStopTyping (userId username : string)
| UsersOnline (users : list string).

Definition listen (st : Provider) (env : Env) (ev : Event) : Provider * list Out :=
  match ev with
  | Connect sid =>
      (set_connected st (Some {| s_connected := true |}) true,
       [Log ("[socket] connected " +:+ sid); Emit "user:join" (identity st)])
  | ConnectError =>
      (set_connected st (Some {| s_connected := false |}) false, [Err "[socket] connect_error"])
  | Disconnected reason =>
      (set_connected st (Some {| s_connected := false |}) false,
       [Log ("[socket] disconnected " +:+ reason)])
  | OnMessage msg => (onMessageReceived st msg, [])
  | OnError => (st, [Err "[socket] error"])
  | UserJoined userId =>
      let st1 := set_messages st
        (messages st ++ [system_message (clock env) "A new user joined the chat"]) in
      let st2 := set_onlineUsers st1 (onlineUsers st1 ∪ {[userId]}) in
      (set_messages st2
         (messages st2 ++ [system_message (clock' env) (userId +:+ " joined the chat")]), [])
  | UserLeft userId =>
      let st1 := set_messages st
        (messages st ++ [system_message (clock env) "Someone left the chat"]) in
      let st2 := set_onlineUsers st1 (onlineUsers st1 ∖ {[userId]}) in
      (set_messages st2
         (messages st2 ++ [system_message (clock' env) (userId +:+ " left the chat")]), [])
  | UserTyping _ username =>
      (set_typingUsers st (include (include (typingUsers st) username) username), [])
  | UserStopTyping _ username =>
      (set_typingUsers st (exclude (exclude (typingUsers st) username) username), [])
  | UsersOnline users => (set_onlineUsers st (list_to_set users), [])
  | Mount | Unmount => (st, [])
  end.

(** One event of the provider.  Listeners exist once the effect has
    created the socket. *)
Definition step (st : Provider) (env : Env) (ev : Event) : Provider * list Out :=
  match ev with
  | Mount => (set_connected st (Some {| s_connected := false |}) (connected st), [])
  | Unmount => (set_connected st None false, [])
  | _ =>
      match socket st with
      | Some _ => listen st env ev
      | None => (st, [])
      end
  end.

Definition run (st : Provider) (steps : list (Env * Event)) : Provider :=
  foldl (fun st '(env, ev) => (step st env ev).1) st steps.

(** The chat page: the input box, the name and what [localStorage] holds
    under [chat_user_name]. *)
Record Page : Type := {
  message : string;
  username : string;
  showNamePrompt : bool;
  chat_user_name : option string
}.

Definition stored_name_set (p : Page) : bool :=
  match chat_user_name p with
  | Some name => negb (String.eqb name "")
  | None => false
  end.

(** [handleSend] *)
Definition handleSend (st : Provider) (p : Page) (env : Env)
  : Provider * Page * list Out :=
  if String.eqb (trim (message p)) "" then (st, p, [])
  else if negb (connected st) then
    (st, p, [Warn "Cannot send message: socket is not connected"])
  else if String.eqb (username p) "" && negb (stored_name_set p) then
    (st, {| message := message p; username := username p; showNamePrompt := true;
            chat_user_name := chat_user_name p |}, [])
  else
    let '(st', out) := sendMessage st env (trim (message p)) in
    (st', {| message := ""; username := username p; showNamePrompt := showNamePrompt p;
             chat_user_name := chat_user_name p |}, out).

End Client.

(* ===================================================================== *)
(** ** Vocabulary of the statements                                       *)
(* ===================================================================== *)

Module Obs.
Import Js Eff.

(** A draft is what a client submits with [event:message]: a bare string
    or an object. *)
Definition is_draft (msg : JsVal) : bool :=
  match msg with JStr _ | JObj _ => true | _ => false end.

(** The value a draft carries under a key ([undefined] when it has none). *)
Definition draft_field (msg : JsVal) (key : string) : JsVal :=
  match msg with JObj fields => assoc key fields | _ => JUndefined end.

(** The non-empty string a draft gives for a key, if it gives one. *)
Definition given (msg : JsVal) (key : string) : option string :=
  match draft_field msg key with
  | JStr s => if String.eqb s "" then None else Some s
  | _ => None
  end.

(** The text a draft gives: itself when it is a bare string, else its
    [text], else its [message]. *)
Definition given_text (msg : JsVal) : option string :=
  match msg with
  | JStr s => Some s
  | _ =>
      match draft_field msg "text" with
      | JStr t => Some t
      | _ => match draft_field msg "message" with JStr m => Some m | _ => None end
      end
  end.

Definition string_or_missing (v : JsVal) : bool := is_string v || nullish v.

(** A draft whose [id], [senderId], [text], [message] and [createdAt],
    where present, are strings (or [null]). *)
Definition well_typed_draft (msg : JsVal) : bool :=
  is_draft msg
  && forallb (fun key => string_or_missing (draft_field msg key))
       ["id"; "senderId"; "text"; "message"; "createdAt"].

(** The broadcast of the [event:message] handler: the branch on
    [messageObject.conversationId]. *)
Definition fanout (obj : JsVal) (fields : list (string * JsVal)) : Effect :=
  if truthy (assoc "conversationId" fields)
  then IoToEmit (assoc "conversationId" fields) "message" obj
  else IoEmit "message" obj.

Section WithCodec.
Context `{JsonCodec}.

(** What the handler does with the relay after the broadcast. *)
Definition relay_part (srv : Server.Service) (env : Server.Env) (obj : JsVal) : list Effect :=
  if Server.pub srv then
    match Server.publish_outcome env with
    | None => [Publish "Messages" (JSON_stringify obj)]
    | Some e => [Console LogWarn "[redis pub] publish failed" (ArgStr (error_message e))]
    end
  else [].

End WithCodec.

(** The event names among the effects of a handler run. *)
Definition emitted_events (effs : list Effect) : list string :=
  omap (fun e => fst <$> Server.emitted e) effs.

Definition delivered_to (sid : string) (ds : list Server.Delivery) : list Server.Delivery :=
  filter (fun d => Server.to d = sid) ds.

Definition client_emits (event : string) (out : list Client.Out) : bool :=
  existsb (fun o => match o with Client.Emit e _ => String.eqb e event | _ => false end) out.

(** The client events that are not a stop notification for [name]. *)
Definition not_stop_for (name : string) (ev : Client.Event) : Prop :=
  match ev with
  | Client.UserStopTyping _ username => username <> name
  | _ => True
  end.

End Obs.

(* ===================================================================== *)
(** ** A small deployment to evaluate the model on                        *)
(* ===================================================================== *)

Module Sample.
Import Js Eff.

(** Sockets A and B have joined room X; socket C has not. *)
Definition table : gmap string (list JsVal) :=
  <["C" := [JStr "C"]]>
    (<["B" := [JStr "B"; JStr "X"]]> (<["A" := [JStr "A"; JStr "X"]]> ∅)).

Definition relayed : Server.Service := {| Server.pub := true; Server.sockets := table |}.
Definition local_only : Server.Service := {| Server.pub := false; Server.sockets := table |}.

Definition env : Server.Env :=
  {| Server.socket_id := "A";
     Server.Date_now := 1700000000000;
     Server.new_Date := 1700000000000;
     Server.publish_outcome := None |}.

Definition later (ms : Z) : Server.Env :=
  {| Server.socket_id := "B";
     Server.Date_now := 1700000000000 + ms;
     Server.new_Date := 1700000000000 + ms;
     Server.publish_outcome := None |}.

(** [{ id: 'tmp_1', text: 'hi' }] *)
Definition draft : JsVal := JObj [("id", JStr "tmp_1"); ("text", JStr "hi")].

(** [{ text: '   ' }] *)
Definition blank : JsVal := JObj [("text", JStr "   ")].

(** [{ conversationId: 'X', text: 'hi' }] *)
Definition to_room : JsVal := JObj [("conversationId", JStr "X"); ("text", JStr "hi")].

Definition cluster : Cluster.State :=
  {| Cluster.instances := [relayed];
     Cluster.published := [];
     Cluster.in_flight := [];
     Cluster.inbox := [] |}.

Definition provider : Client.Provider :=
  {| Client.socket := Some {| Client.s_connected := true |};
     Client.messages := [];
     Client.connected := true;
     Client.typingUsers := [];
     Client.onlineUsers := ∅;
     Client.currentUserId := "u_1";
     Client.currentUserName := "alice" |}.

Definition offline_provider : Client.Provider :=
  {| Client.socket := Some {| Client.s_connected := false |};
     Client.messages := [];
     Client.connected := false;
     Client.typingUsers := [];
     Client.onlineUsers := ∅;
     Client.currentUserId := "u_1";
     Client.currentUserName := "alice" |}.

Definition client_env : Client.Env :=
  {| Client.clock := {| Client.Date_now := 1700000000000; Client.new_Date := 1700000000000 |};
     Client.clock' := {| Client.Date_now := 1700000000001; Client.new_Date := 1700000000001 |};
     Client.Math_random36 := "0.4fzyo82mvyr" |}.

Definition page (input : string) : Client.Page :=
  {| Client.message := input;
     Client.username := "alice";
     Client.showNamePrompt := false;
     Client.chat_user_name := Some "alice" |}.

End Sample.

Module Roundtrip.
Import Js.

(** The optimistic copy the sample client appends for the text [hi], and
    what the sample server makes of the draft it receives for it. *)
Definition optimistic : Client.Message :=
  Client.draft Sample.provider Sample.client_env "hi".

Definition canonical : option Client.Message :=
  match Server.messageObject Sample.env (Client.encode optimistic) with
  | Ok obj => Client.decode obj
  | Throw _ => None
  end.

Definition echoed : Client.Message :=
  {| Client.id := "tmp_loyw3v28_4fz";
     Client.conversationId := None;
     Client.senderId := "u_1";
     Client.senderName := Some "alice";
     Client.text := "hi";
     Client.createdAt := "2023-11-14T22:13:20.000Z" |}.

End Roundtrip.

Module Typing.
Import Js.

(** [{ userId: 'u_1', username: 'alice' }] *)
Definition who : JsVal := JObj [("userId", JStr "u_1"); ("username", JStr "alice")].

(** Socket A reports typing and never reports that it stopped; ten
    minutes later socket B submits a message. *)
Definition session : list (Server.Env * Server.Event) :=
  [(Sample.env, Server.Inbound "A" "user:typing" who);
   (Sample.later 600000, Server.Inbound "B" "event:message" (JStr "hello"))].

(** What a client sees meanwhile: alice starts typing, then only the
    message arrives. *)
Definition seen : list (Client.Env * Client.Event) :=
  [(Sample.client_env, Client.UserTyping "u_1" "alice");
   (Sample.client_env,
    Client.OnMessage
      {| Client.id := "tmp_loywgq6g"; Client.conversationId := None;
         Client.senderId := "B"; Client.senderName := None;
         Client.text := "hello"; Client.createdAt := "2023-11-14T22:23:20.000Z" |})].

End Typing.

(* ===================================================================== *)
(** ** The rest of the server and client code                             *)
(* ===================================================================== *)

(** [retryStrategy] of the Redis options in the constructor of
    [SocketService]; [times] is the number of the reconnection attempt. *)
Module Backoff.

Definition retryStrategy (times : Z) : Z := Z.min (2000 + times * 50) 20000.

End Backoff.

(** How [SocketProvider] gets the identity of the user. *)
Module Identity.
Import Js.

(** One call of [generateClientId]: what [Date.now()] and
    [Math.random().toString(36)] answer during it. *)
Record Reading : Type := {
  now : Z;
  random36 : string
}.

(** ['u_' + Date.now().toString(36) + '_' + Math.random().toString(36).slice(2, 7)] *)
Definition generateClientId (r : Reading) : string :=
  "u_" +:+ toString36 (now r) +:+ "_" +:+ slice (random36 r) 2 7.

(** The browser around the provider: whether [window] exists, what
    [localStorage] holds under [chat_user_id] and [chat_user_name], and
    whether [getItem] or [setItem] throw. *)
Record Browser : Type := {
  window : bool;
  chat_user_id : option string;
  chat_user_name : option string;
  getItem_throws : bool;
  setItem_throws : bool
}.

Definition store_id (b : Browser) (id : string) : Browser :=
  {| window := window b; chat_user_id := Some id; chat_user_name := chat_user_name b;
     getItem_throws := getItem_throws b; setItem_throws := setItem_throws b |}.

(** A string read from storage, as a condition: [null] and the empty
    string are falsy. *)
Definition present (v : option string) : option string :=
  match v with
  | Some s => if String.eqb s "" then None else Some s
  | None => None
  end.

(** The initialiser of [currentUserId].  [first] and [second] are the
    readings of the first and of the second call of [generateClientId];
    the second call happens in the [catch] when [setItem] has thrown. *)
Definition initUserId (b : Browser) (first second : Reading) : string * Browser :=
  if window b then
    if getItem_throws b then (generateClientId first, b)
    else
      match present (chat_user_id b) with
      | Some existing => (existing, b)
      | None =>
          if setItem_throws b then (generateClientId second, b)
          else (generateClientId first, store_id b (generateClientId first))
      end
  else (generateClientId first, b).

(** The initialiser of [currentUserName]; it has no [try], so a throwing
    [getItem] leaves it by an exception. *)
Definition initUserName (b : Browser) (currentUserId : string) : Res string :=
  if window b then
    if getItem_throws b then Throw (Error "localStorage.getItem")
    else
      match present (chat_user_name b) with
      | Some savedName => Ok savedName
      | None => Ok (slice currentUserId 0 6)
      end
  else Ok (slice currentUserId 0 6).

(** [handleStorageChange]: the name after a [storage] event with the
    given [key] and [newValue]. *)
Definition handleStorageChange (currentUserName : string)
    (key newValue : option string) : string :=
  match key, present newValue with
  | Some k, Some v => if String.eqb k "chat_user_name" then v else currentUserName
  | _, _ => currentUserName
  end.

End Identity.

(** The functions of the chat page. *)
Module Ui.
Import Js.

(** ToInt32 of an integer-valued number. *)
Definition to_int32 (z : Z) : Z := (z + 2 ^ 31) mod 2 ^ 32 - 2 ^ 31.

(** [hash << 5] *)
Definition shl5 (hash : Z) : Z := to_int32 (to_int32 hash * 32).

(** The loop of [stringToColor] from a given [hash] on:
    [hash = str.charCodeAt(i) + ((hash << 5) - hash)].  The shift wraps to
    32 bits; the subtraction and the sum are plain number arithmetic. *)
Fixpoint hash_from (hash : Z) (str : string) : Z :=
  match str with
  | EmptyString => hash
  | String c rest => hash_from (code c + (shl5 hash - hash)) rest
  end.

(** [hash % 360]: the remainder has the sign of [hash]. *)
Definition hue (str : string) : Z := Z.rem (hash_from 0 str) 360.

Definition stringToColor (str : string) : string :=
  "hsl(" +:+ toString10 (hue str) +:+ ", 70%, 45%)".

Definition set_message (p : Client.Page) (value : string) : Client.Page :=
  {| Client.message := value; Client.username := Client.username p;
     Client.showNamePrompt := Client.showNamePrompt p;
     Client.chat_user_name := Client.chat_user_name p |}.

(** The effect that runs on mount: the saved name, if there is one,
    becomes the name and closes the prompt. *)
Definition mount (stored : option string) : Client.Page :=
  match Identity.present stored with
  | Some savedName =>
      {| Client.message := ""; Client.username := savedName;
         Client.showNamePrompt := false; Client.chat_user_name := stored |}
  | None =>
      {| Client.message := ""; Client.username := "";
         Client.showNamePrompt := true; Client.chat_user_name := stored |}
  end.

(** [handleSetUsername] *)
Definition handleSetUsername (p : Client.Page) : Client.Page * list Client.Out :=
  let trimmedName := trim (Client.username p) in
  if String.eqb trimmedName "" then (p, [])
  else
    ({| Client.message := Client.message p; Client.username := trimmedName;
        Client.showNamePrompt := false; Client.chat_user_name := Some trimmedName |},
     [Client.Reload]).

(** [onChange] of the input: [setMessage(value); setTyping(value.length > 0)] *)
Definition onChange (st : Client.Provider) (p : Client.Page) (value : string)
  : Client.Page * list Client.Out :=
  (set_message p value, Client.setTyping st (negb (String.eqb value ""))).

(** The Send button and the Enter key: [handleSend(); setTyping(false)] *)
Definition onSend (st : Client.Provider) (p : Client.Page) (env : Client.Env)
  : Client.Provider * Client.Page * list Client.Out :=
  let '(st', p', out) := Client.handleSend st p env in
  (st', p', out ++ Client.setTyping st false).

End Ui.

(** More vocabulary of the statements. *)
Module Shape.
Import Js.

(** The message object built when every field is defaulted. *)
Definition empty_message (env : Server.Env) : list (string * JsVal) :=
  [("id", JStr ("tmp_" +:+ toString36 (Server.Date_now env)));
   ("conversationId", JUndefined);
   ("senderId", JStr (Server.socket_id env));
   ("senderName", JUndefined);
   ("text", JStr "");
   ("createdAt", JStr (toISOString (Server.new_Date env)))].

End Shape.

(** Messages to run the reconciliation on. *)
Module Recon.

Definition entry (i body : string) : Client.Message :=
  {| Client.id := i; Client.conversationId := None; Client.senderId := "u_2";
     Client.senderName := Some "bob"; Client.text := body;
     Client.createdAt := "2023-11-14T22:13:19.000Z" |}.

(** The list holds the spec's draft [tmp_1] and one more entry. *)
Definition local : list Client.Message := [entry "tmp_1" "hi"; entry "m_2" "there"].

(** The canonical message for [tmp_1], and a message the list has not seen. *)
Definition update : Client.Message := entry "tmp_1" "hi (canonical)".
Definition unseen : Client.Message := entry "m_3" "new".

(** A provider that already shows [local], and the canonical copy of what
    it sends next: the temporary id of the draft, a later creation time. *)
Definition provider : Client.Provider :=
  Client.set_messages Sample.provider local.

Definition canonical : Client.Message :=
  {| Client.id := "tmp_loyw3v28_4fz"; Client.conversationId := None;
     Client.senderId := "u_1"; Client.senderName := Some "alice";
     Client.text := "hi"; Client.createdAt := "2023-11-14T22:13:20.042Z" |}.

End Recon.

(* ===================================================================== *)
(** * Properties                                                          *)
(* ===================================================================== *)

Import Js Eff Obs Shape.

(** ** The runtime functions *)

Example toISOString_epoch : toISOString 0 = "1970-01-01T00:00:00.000Z".
Proof. reflexivity. Qed.

Example toISOString_before_epoch : toISOString (-1) = "1969-12-31T23:59:59.999Z".
Proof. reflexivity. Qed.

Example toISOString_leap_day : toISOString 951782400000 = "2000-02-29T00:00:00.000Z".
Proof. reflexivity. Qed.

Example toISOString_2023 : toISOString 1700000000000 = "2023-11-14T22:13:20.000Z".
Proof. reflexivity. Qed.

Example toString36_2023 : toString36 1700000000000 = "loyw3v28".
Proof. reflexivity. Qed.

Example slice_random : slice "0.4fzyo82mvyr" 2 5 = "4fz".
Proof. reflexivity. Qed.

Example trim_inner_space : trim "  a b  " = "a b".
Proof. reflexivity. Qed.

Lemma digit_value_char d : 0 <= d < 36 -> digit_value (digit_char d) = d.
Proof.
  intros Hd. unfold digit_value, digit_char, code.
  destruct (Z.ltb_spec d 10).
  - rewrite nat_ascii_embedding by lia.
    destruct (Z.ltb_spec (Z.of_nat (Z.to_nat (48 + d))) 58); lia.
  - rewrite nat_ascii_embedding by lia.
    destruct (Z.ltb_spec (Z.of_nat (Z.to_nat (87 + d))) 58); lia.
Qed.

(** The digits written for [n] read back as [n]: the fuel of
    [radix_digits] never runs out before the last digit. *)
Lemma radix_digits_value radix fuel : forall n acc,
  2 <= radix <= 36 ->
  0 <= n < 2 ^ (Z.of_nat fuel + 1) ->
  radix_value radix (radix_digits fuel radix n acc) 0 = radix_value radix acc n.
Proof.
  induction fuel as [|fuel IH]; intros n acc Hr Hn.
  - cbn [radix_digits radix_value].
    rewrite digit_value_char by (split; [apply Z.mod_pos_bound | ]; try lia;
      pose proof (Z.mod_pos_bound n radix); lia).
    change (2 ^ (Z.of_nat 0 + 1)) with 2 in Hn.
    rewrite Z.mod_small by lia. reflexivity.
  - cbn [radix_digits].
    assert (Hmod : 0 <= n mod radix < 36)
      by (pose proof (Z.mod_pos_bound n radix); lia).
    destruct (Z.eqb_spec (n / radix) 0) as [Hq|Hq].
    + cbn [radix_value]. rewrite digit_value_char by exact Hmod.
      f_equal. pose proof (Z.div_mod n radix). lia.
    + rewrite IH.
      * cbn [radix_value]. rewrite digit_value_char by exact Hmod.
        f_equal. pose proof (Z.div_mod n radix). lia.
      * exact Hr.
      * split; [apply Z.div_pos; lia|].
        apply Z.div_lt_upper_bound; [lia|].
        replace (Z.of_nat (S fuel) + 1) with (Z.succ (Z.of_nat fuel + 1)) in Hn by lia.
        rewrite Z.pow_succ_r in Hn by lia.
        assert (0 < 2 ^ (Z.of_nat fuel + 1)) by (apply Z.pow_pos_nonneg; lia).
        nia.
Qed.

Lemma toStringRadix_value radix n :
  2 <= radix <= 36 -> 0 <= n ->
  radix_value radix (toStringRadix radix n) 0 = n.
Proof.
  intros Hr Hn. unfold toStringRadix.
  destruct (Z.ltb_spec n 0); [lia|].
  rewrite Z.abs_eq by lia.
  rewrite radix_digits_value; [reflexivity | exact Hr |].
  split; [lia|].
  destruct (Z.eq_dec n 0) as [->|Hpos]; [reflexivity|].
  rewrite Z2Nat.id by apply Z.log2_nonneg.
  replace (Z.log2 n + 1) with (Z.succ (Z.log2 n)) by lia.
  apply Z.log2_spec. lia.
Qed.

(** Trimming leaves nothing exactly when the string is blank. *)
Lemma trimStart_blank s : trimStart s = EmptyString <-> blank s = true.
Proof.
  induction s as [|c s IH]; cbn; [done|].
  destruct (is_space c); cbn; [exact IH|]. split; discriminate.
Qed.

Lemma trimStart_head s c rest : trimStart s = String c rest -> is_space c = false.
Proof.
  induction s as [|c' s IH]; cbn; [discriminate|].
  destruct (is_space c') eqn:E; [exact IH|].
  intros [= -> _]. exact E.
Qed.

Lemma trim_blank s : trim s = EmptyString <-> blank s = true.
Proof.
  rewrite <- trimStart_blank. unfold trim.
  destruct (trimStart s) as [|c rest] eqn:E; [done|].
  apply trimStart_head in E. cbn. rewrite E.
  destruct (trimEnd rest); split; discriminate.
Qed.

(** ** The canonical message *)

Section Canonical.
Context `{JsonCodec}.

Lemma messageObject_of_object env fields :
  Server.messageObject env (JObj fields) =
  Ok (JObj [("id", or_else (assoc "id" fields) (Server.tmp_id env));
            ("conversationId", assoc "conversationId" fields);
            ("senderId", or_else (assoc "senderId" fields) (JStr (Server.socket_id env)));
            ("senderName", assoc "senderName" fields);
            ("text", if nullish (assoc "text" fields)
                     then coalesce (assoc "message" fields) (JStr "")
                     else assoc "text" fields);
            ("createdAt", or_else (assoc "createdAt" fields)
                            (JStr (toISOString (Server.new_Date env))))]).
Proof.
  unfold Server.messageObject. cbn.
  destruct (nullish (assoc "text" fields)); reflexivity.
Qed.

Lemma messageObject_of_string env s :
  Server.messageObject env (JStr s) =
  Ok (JObj [("id", Server.tmp_id env);
            ("senderId", JStr (Server.socket_id env));
            ("text", JStr s);
            ("createdAt", JStr (toISOString (Server.new_Date env)))]).
Proof. reflexivity. Qed.

Lemma messageObject_is_object env msg obj :
  Server.messageObject env msg = Ok obj -> exists fields, obj = JObj fields.
Proof.
  destruct msg as [| |b|n|s|items|fields];
    try (cbn; intros E; inversion E; eauto; fail).
  rewrite messageObject_of_object. intros E; inversion E; eauto.
Qed.

(** The handler never lets an exception out, and once the message object
    is built it logs, broadcasts once and then turns to the relay. *)
Lemma event_message_run srv env msg fields :
  Server.messageObject env msg = Ok (JObj fields) ->
  Server.on_event_message srv env msg =
  ([Console LogInfo "Received event:message:" (ArgVal (JObj fields));
    fanout (JObj fields) fields] ++ relay_part srv env (JObj fields), Ok tt).
Proof.
  intros E. unfold Server.on_event_message, fanout, relay_part, Server.publish.
  rewrite E. cbn.
  destruct (truthy (assoc "conversationId" fields)); cbn;
    destruct (Server.pub srv); cbn; try reflexivity;
    destruct (Server.publish_outcome env); reflexivity.
Qed.

Lemma event_message_throw srv env msg e :
  Server.messageObject env msg = Throw e ->
  Server.on_event_message srv env msg =
  ([Console LogError "Error handling event:message" (ArgErr e)], Ok tt).
Proof.
  intros E. unfold Server.on_event_message. rewrite E. reflexivity.
Qed.

Lemma event_message_never_throws srv env msg :
  outcome (Server.on_event_message srv env msg) = Ok tt.
Proof.
  destruct (Server.messageObject env msg) as [obj|e] eqn:E.
  - destruct (messageObject_is_object _ _ _ E) as [fields ->].
    rewrite (event_message_run _ _ _ _ E). reflexivity.
  - rewrite (event_message_throw _ _ _ _ E). reflexivity.
Qed.

End Canonical.

Section Submit.
Context `{JsonCodec}.

Lemma with_sockets_same srv : Server.with_sockets srv (Server.sockets srv) = srv.
Proof. destruct srv; reflexivity. Qed.

Lemma fanout_keeps_table t obj fields :
  Server.apply_effect t (fanout obj fields) = t.
Proof. unfold fanout. destruct (truthy _); reflexivity. Qed.

Lemma observe_relay_part t srv env obj :
  Server.observe t (relay_part srv env obj) = (t, []).
Proof.
  unfold relay_part. destruct (Server.pub srv); [|reflexivity].
  destruct (Server.publish_outcome env); reflexivity.
Qed.

(** A draft always yields a message object. *)
Lemma draft_has_messageObject env msg :
  is_draft msg = true ->
  exists fields, Server.messageObject env msg = Ok (JObj fields).
Proof.
  destruct msg; try discriminate; intros _.
  - rewrite messageObject_of_string; eauto.
  - rewrite messageObject_of_object; eauto.
Qed.

(** One [event:message] of a connected socket, once the message object is
    built: the table is left alone, the handler returns, and the only
    deliveries are those of the one broadcast. *)
Lemma submit_step srv env sid rooms msg fields :
  Server.sockets srv !! sid = Some rooms ->
  Server.messageObject env msg = Ok (JObj fields) ->
  Server.step srv env (Server.Inbound sid "event:message" msg) =
  {| Server.service := srv;
     Server.trace :=
       [Console LogInfo "Received event:message:" (ArgVal (JObj fields));
        fanout (JObj fields) fields] ++ relay_part srv env (JObj fields);
     Server.delivered := Server.deliveries (Server.sockets srv) (fanout (JObj fields) fields);
     Server.result := Ok tt |}.
Proof.
  intros Hsid E. unfold Server.step, Server.handle. rewrite Hsid.
  change (Server.listener srv env sid "event:message" msg)
    with (Server.on_event_message srv env msg).
  rewrite (event_message_run _ _ _ _ E). cbn [effects outcome fst snd].
  cbn [Server.transport app Server.observe Server.apply_effect].
  rewrite fanout_keeps_table, observe_relay_part.
  cbn [Server.deliveries Server.emitted app]. rewrite app_nil_r, with_sockets_same.
  reflexivity.
Qed.

End Submit.

Section Identity.
Context `{JsonCodec}.

(** C2. For a draft submitted by a connected socket, the canonical message
    the server builds and broadcasts has the client-chosen id [T] when the
    draft carries a non-empty string [T] as its id; when the draft has no
    id (a bare string, or an object without one) or an empty one, the id is
    the synthesized ['tmp_' + Date.now().toString(36)]. *)
Theorem C2_canonical_id_is_client_id srv env sid rooms msg :
  Server.sockets srv !! sid = Some rooms ->
  is_draft msg = true ->
  exists fields,
    Server.messageObject env msg = Ok (JObj fields)
    /\ In (fanout (JObj fields) fields)
         (Server.trace (Server.step srv env (Server.Inbound sid "event:message" msg)))
    /\ (forall T, draft_field msg "id" = JStr T -> T <> "" -> assoc "id" fields = JStr T)
    /\ (draft_field msg "id" = JUndefined \/ draft_field msg "id" = JStr "" ->
        assoc "id" fields = JStr ("tmp_" +:+ toString36 (Server.Date_now env))).
Proof.
  intros Hsid Hdraft.
  destruct msg as [| |b|n|s|items|fs]; try discriminate.
  - eexists. split; [apply messageObject_of_string|].
    split.
    { rewrite (submit_step _ _ _ _ _ _ Hsid (messageObject_of_string env s)).
      cbn. right; left; reflexivity. }
    split; [intros T E; discriminate E | intros _; reflexivity].
  - eexists. split; [apply messageObject_of_object|].
    split.
    { rewrite (submit_step _ _ _ _ _ _ Hsid (messageObject_of_object env fs)).
      cbn [Server.trace app In]. right; left; reflexivity. }
    cbn [draft_field assoc String.eqb Ascii.eqb Bool.eqb].
    split.
    + intros T E Hne. rewrite E. unfold or_else. cbn [truthy].
      destruct (String.eqb_spec T ""); [contradiction|reflexivity].
    + intros [E|E]; rewrite E; reflexivity.
Qed.

End Identity.

Lemma C2_draft_tmp_1_keeps_its_id :
  exists fields,
    Server.messageObject Sample.env Sample.draft = Ok (JObj fields)
    /\ assoc "id" fields = JStr "tmp_1".
Proof.
  destruct (C2_canonical_id_is_client_id (H := Json.codec)
              Sample.relayed Sample.env "A" [JStr "A"; JStr "X"] Sample.draft)
    as (fields & E & _ & Hid & _); [reflexivity | reflexivity |].
  exists fields. split; [exact E|].
  apply Hid; [reflexivity | discriminate].
Defined.

(** ** Defaults of the message object *)

Lemma string_or_missing_cases v :
  string_or_missing v = true ->
  (exists s, v = JStr s) \/ v = JUndefined \/ v = JNull.
Proof.
  destruct v; cbn; try discriminate; eauto.
Qed.

Lemma or_else_string v (fallback : string) :
  string_or_missing v = true ->
  or_else v (JStr fallback) =
  JStr (match v with JStr s => if String.eqb s "" then fallback else s | _ => fallback end).
Proof.
  intros Hv. destruct (string_or_missing_cases v Hv) as [[s ->]|[->| ->]]; try reflexivity.
  unfold or_else; cbn. destruct (String.eqb s ""); reflexivity.
Qed.

(** The payload [{ id: 5, text: 0 }] is an object with a subset of the
    fields, yet the message object the handler builds and broadcasts for
    it has the number 5 as id and the number 0 as text, not strings; and
    for the payload [null] no message object is built at all. *)
Lemma C10_number_fields_stay_numbers :
  let msg := JObj [("id", JNum 5); ("text", JNum 0)] in
  let o := Server.step (H := Json.codec) Sample.relayed Sample.env
             (Server.Inbound "A" "event:message" msg) in
  is_draft msg = true
  /\ (exists fields,
        Server.messageObject Sample.env msg = Ok (JObj fields)
        /\ In (IoEmit "message" (JObj fields)) (Server.trace o)
        /\ assoc "id" fields = JNum 5
        /\ assoc "text" fields = JNum 0
        /\ is_string (assoc "id" fields) = false
        /\ is_string (assoc "text" fields) = false)
  /\ Server.messageObject Sample.env JNull
     = Throw (TypeError "Cannot read properties of null (reading 'id')").
Proof.
  cbn zeta. split; [reflexivity|]. split; [|reflexivity].
  eexists. split; [reflexivity|]. vm_compute. intuition.
Qed.

Section Defaults.
Context `{JsonCodec}.

(** C10, as the code has it.  The handler converts nothing, so the claim
    holds for the payloads whose fields have the declared types: for every
    inbound [event:message] payload of a connected socket that is a bare
    string, or an object whose [id], [senderId], [text], [message] and
    [createdAt] are strings (or [null]) where present, the handler builds
    a message object, logs it and broadcasts it, and its [id], [senderId],
    [text] and [createdAt] are strings: the id the draft gives, or
    ['tmp_' + Date.now().toString(36)] when it is missing or empty; the
    sender the draft gives, or the socket id; the text the draft gives
    (its [text], else its [message]), or the empty string; the creation
    time the draft gives, or the current time in ISO-8601. *)
Theorem C10_typed_draft_fields_are_strings srv env sid rooms msg :
  Server.sockets srv !! sid = Some rooms ->
  well_typed_draft msg = true ->
  exists fields,
    Server.messageObject env msg = Ok (JObj fields)
    /\ Server.trace (Server.step srv env (Server.Inbound sid "event:message" msg))
       = [Console LogInfo "Received event:message:" (ArgVal (JObj fields));
          fanout (JObj fields) fields] ++ relay_part srv env (JObj fields)
    /\ assoc "id" fields =
         JStr (default ("tmp_" +:+ toString36 (Server.Date_now env)) (given msg "id"))
    /\ assoc "senderId" fields =
         JStr (default (Server.socket_id env) (given msg "senderId"))
    /\ assoc "text" fields = JStr (default "" (given_text msg))
    /\ assoc "createdAt" fields =
         JStr (default (toISOString (Server.new_Date env)) (given msg "createdAt")).
Proof.
  unfold well_typed_draft. intros Hsid Hwt.
  apply andb_prop in Hwt as [Hdraft Hfields].
  destruct msg as [| |b|n|s|items|fs]; try discriminate.
  - eexists. split; [apply messageObject_of_string|].
    split; [by rewrite (submit_step _ _ _ _ _ _ Hsid (messageObject_of_string env s))|].
    repeat split.
  - cbn [forallb draft_field] in Hfields.
    repeat (apply andb_prop in Hfields as [? Hfields]).
    eexists. split; [apply messageObject_of_object|].
    split; [by rewrite (submit_step _ _ _ _ _ _ Hsid (messageObject_of_object env fs))|].
    cbn [assoc String.eqb Ascii.eqb Bool.eqb].
    unfold given, given_text, Server.tmp_id. cbn [draft_field].
    repeat split.
    + rewrite or_else_string by assumption.
      destruct (assoc "id" fs) as [| | | |i| |]; try reflexivity.
      destruct (String.eqb i ""); reflexivity.
    + rewrite or_else_string by assumption.
      destruct (assoc "senderId" fs) as [| | | |i| |]; try reflexivity.
      destruct (String.eqb i ""); reflexivity.
    + match goal with
      | Ht : string_or_missing (assoc "text" fs) = true,
        Hm : string_or_missing (assoc "message" fs) = true |- _ =>
          destruct (string_or_missing_cases _ Ht) as [[t ->]|[->| ->]]; cbn [nullish];
            try reflexivity;
            destruct (string_or_missing_cases _ Hm) as [[m ->]|[->| ->]]; reflexivity
      end.
    + rewrite or_else_string by assumption.
      destruct (assoc "createdAt" fs) as [| | | |i| |]; try reflexivity.
      destruct (String.eqb i ""); reflexivity.
Qed.

End Defaults.

Lemma C10_bare_string_and_sparse_object :
  (exists fields,
     Server.messageObject Sample.env (JStr "hello") = Ok (JObj fields)
     /\ Server.trace (Server.step (H := Json.codec) Sample.relayed Sample.env
                        (Server.Inbound "A" "event:message" (JStr "hello")))
        = [Console LogInfo "Received event:message:" (ArgVal (JObj fields));
           fanout (JObj fields) fields]
            ++ relay_part (H := Json.codec) Sample.relayed Sample.env (JObj fields)
     /\ assoc "id" fields = JStr "tmp_loyw3v28"
     /\ assoc "senderId" fields = JStr "A"
     /\ assoc "text" fields = JStr "hello"
     /\ assoc "createdAt" fields = JStr "2023-11-14T22:13:20.000Z")
  /\ (exists fields,
        Server.messageObject Sample.env (JObj [("id", JStr ""); ("message", JStr "hey")])
          = Ok (JObj fields)
        /\ Server.trace (Server.step (H := Json.codec) Sample.relayed Sample.env
                           (Server.Inbound "A" "event:message"
                              (JObj [("id", JStr ""); ("message", JStr "hey")])))
           = [Console LogInfo "Received event:message:" (ArgVal (JObj fields));
              fanout (JObj fields) fields]
               ++ relay_part (H := Json.codec) Sample.relayed Sample.env (JObj fields)
        /\ assoc "id" fields = JStr "tmp_loyw3v28"
        /\ assoc "senderId" fields = JStr "A"
        /\ assoc "text" fields = JStr "hey"
        /\ assoc "createdAt" fields = JStr "2023-11-14T22:13:20.000Z").
Proof.
  split.
  - apply (C10_typed_draft_fields_are_strings (H := Json.codec) Sample.relayed Sample.env
             "A" [JStr "A"; JStr "X"] (JStr "hello")); reflexivity.
  - apply (C10_typed_draft_fields_are_strings (H := Json.codec) Sample.relayed Sample.env
             "A" [JStr "A"; JStr "X"] (JObj [("id", JStr ""); ("message", JStr "hey")]));
      reflexivity.
Defined.

(** ** Blank text *)

(** The draft [{ text: '   ' }], whose text is empty after trimming, is not
    rejected by the server: every socket of the process receives the
    message and it is published on the relay topic. *)
Lemma C1_blank_text_is_fanned_out_and_published :
  let o := Server.step (H := Json.codec) Sample.relayed Sample.env
             (Server.Inbound "A" "event:message" Sample.blank) in
  given_text Sample.blank = Some "   "
  /\ blank "   " = true
  /\ trim "   " = ""
  /\ Server.to <$> Server.delivered o = ["C"; "A"; "B"]
  /\ Server.event <$> Server.delivered o = ["message"; "message"; "message"]
  /\ length (Cluster.publications (Server.trace o)) = 1%nat
  /\ ~ (Server.delivered o = [] /\ Cluster.publications (Server.trace o) = []).
Proof.
  vm_compute. repeat split; intros [E _]; discriminate E.
Qed.

Section BlankText.
Context `{JsonCodec}.

(** C1, as the code has it.  The server never rejects a draft for its
    text: for every draft of a connected socket (a bare string or an
    object, whatever its text, also empty or whitespace-only) the handler
    builds the message object, broadcasts it once (to the room when
    [conversationId] is truthy, to every socket otherwise), publishes it
    once on [Messages] when the relay is configured and the publish
    resolves, and returns.  Text that is empty after trimming is rejected
    only in the client: [handleSend] returns before [sendMessage], so
    nothing is appended to the list and nothing is emitted. *)
Theorem C1_server_broadcasts_any_text_client_rejects_blank
    srv env sid rooms msg st page cenv :
  Server.sockets srv !! sid = Some rooms ->
  is_draft msg = true ->
  blank (Client.message page) = true ->
  (exists fields,
     let obj := JObj fields in
     let o := Server.step srv env (Server.Inbound sid "event:message" msg) in
     Server.messageObject env msg = Ok obj
     /\ Server.trace o =
          [Console LogInfo "Received event:message:" (ArgVal obj); fanout obj fields]
            ++ relay_part srv env obj
     /\ Server.delivered o = Server.deliveries (Server.sockets srv) (fanout obj fields)
     /\ Server.result o = Ok tt
     /\ (Server.pub srv = true -> Server.publish_outcome env = None ->
         Cluster.publications (Server.trace o) = [("Messages", JSON_stringify obj)]))
  /\ Client.handleSend st page cenv = (st, page, []).
Proof.
  intros Hsid Hdraft Hblank. split.
  - destruct (draft_has_messageObject env msg Hdraft) as [fields E].
    exists fields. cbn zeta.
    rewrite (submit_step _ _ _ _ _ _ Hsid E). cbn [Server.trace Server.delivered Server.result].
    repeat split; try assumption.
    intros Hpub Hok. unfold relay_part, fanout. rewrite Hpub, Hok.
    destruct (truthy _); reflexivity.
  - unfold Client.handleSend. apply trim_blank in Hblank. rewrite Hblank. reflexivity.
Qed.

End BlankText.

Lemma C1_blank_draft_on_both_sides :
  (exists fields,
     let obj := JObj fields in
     let o := Server.step (H := Json.codec) Sample.relayed Sample.env
                (Server.Inbound "A" "event:message" Sample.blank) in
     Server.messageObject Sample.env Sample.blank = Ok obj
     /\ Server.trace o =
          [Console LogInfo "Received event:message:" (ArgVal obj); fanout obj fields]
            ++ relay_part (H := Json.codec) Sample.relayed Sample.env obj
     /\ Server.delivered o = Server.deliveries Sample.table (fanout obj fields)
     /\ Server.result o = Ok tt
     /\ (true = true -> @None JsError = None ->
         Cluster.publications (Server.trace o)
           = [("Messages", JSON_stringify (JsonCodec := Json.codec) obj)]))
  /\ Client.handleSend Sample.provider (Sample.page "   ") Sample.client_env
     = (Sample.provider, Sample.page "   ", []).
Proof.
  apply (C1_server_broadcasts_any_text_client_rejects_blank (H := Json.codec)
           Sample.relayed Sample.env "A" [JStr "A"; JStr "X"] Sample.blank
           Sample.provider (Sample.page "   ") Sample.client_env);
    reflexivity.
Defined.

(** ** The client: reconciliation and sending *)

Lemma reconcile_hit (prev : list Client.Message) msg :
  (exists m, m ∈ prev /\ Client.id m = Client.id msg) ->
  Client.reconcile prev msg =
  (fun m => if String.eqb (Client.id m) (Client.id msg) then msg else m) <$> prev.
Proof.
  intros (m & Hin & Hid). unfold Client.reconcile.
  replace (existsb _ prev) with true; [reflexivity|].
  symmetry. apply existsb_exists. exists m. split.
  - by apply list_elem_of_In.
  - by apply String.eqb_eq.
Qed.

Lemma reconcile_miss (prev : list Client.Message) msg :
  (forall m, m ∈ prev -> Client.id m <> Client.id msg) ->
  Client.reconcile prev msg = prev ++ [msg].
Proof.
  intros Hnone. unfold Client.reconcile.
  destruct (existsb _ prev) eqn:E; [|reflexivity].
  apply existsb_exists in E as (m & Hin & Hid).
  apply String.eqb_eq in Hid. apply list_elem_of_In in Hin.
  destruct (Hnone m Hin Hid).
Qed.

Lemma some_id_or_none (prev : list Client.Message) (msg : Client.Message) :
  (exists m, m ∈ prev /\ Client.id m = Client.id msg)
  \/ (forall m, m ∈ prev -> Client.id m <> Client.id msg).
Proof.
  induction prev as [|m prev IH].
  - right. intros m Hm. by apply not_elem_of_nil in Hm.
  - destruct (String.eqb_spec (Client.id m) (Client.id msg)) as [E|N].
    + left. exists m. split; [apply list_elem_of_here | exact E].
    + destruct IH as [(m' & Hin & E)|IH].
      * left. exists m'. split; [by apply list_elem_of_further | exact E].
      * right. intros m' Hin. apply elem_of_cons in Hin as [->|Hin]; auto.
Qed.

(** C3. For every local list and every incoming message, whatever its
    id, reconciliation either finds an entry with the incoming id, and then
    the list keeps its length and every entry with that id is replaced in
    place by the incoming message while the others stay, or finds none and
    appends the incoming message at the end.  In particular, after
    [sendMessage] has appended the optimistic copy under its temporary id,
    the arrival of the canonical message with that id leaves the list as
    long as it was, puts the canonical message where the optimistic copy
    stood and leaves the entries with other ids as they were. *)
Theorem C3_replace_by_id_else_append
    (prev : list Client.Message) incoming st env body canonical :
  (((exists m, m ∈ prev /\ Client.id m = Client.id incoming)
    /\ length (Client.reconcile prev incoming) = length prev
    /\ forall i m, prev !! i = Some m ->
         Client.reconcile prev incoming !! i =
         Some (if String.eqb (Client.id m) (Client.id incoming) then incoming else m))
   \/ ((forall m, m ∈ prev -> Client.id m <> Client.id incoming)
       /\ Client.reconcile prev incoming = prev ++ [incoming]))
  /\ (Client.offline st = false ->
      Client.id canonical = Client.tempId env ->
      let sent := (Client.sendMessage st env body).1 in
      let after := Client.onMessageReceived sent canonical in
      Client.messages sent = Client.messages st ++ [Client.draft st env body]
      /\ length (Client.messages after) = length (Client.messages sent)
      /\ Client.messages after !! length (Client.messages st) = Some canonical
      /\ forall i m, Client.messages st !! i = Some m ->
           Client.id m <> Client.tempId env ->
           Client.messages after !! i = Some m).
Proof.
  split.
  - destruct (some_id_or_none prev incoming) as [Hhit|Hmiss].
    + left. split; [exact Hhit|]. rewrite (reconcile_hit _ _ Hhit).
      split; [apply length_fmap|].
      intros i m Hi. by rewrite list_lookup_fmap, Hi.
    + right. split; [exact Hmiss | by apply reconcile_miss].
  - intros Hon Hid.
    unfold Client.sendMessage. rewrite Hon. cbn [fst Client.onMessageReceived Client.set_messages Client.messages].
    assert (Hhit : exists m, m ∈ Client.messages st ++ [Client.draft st env body]
                             /\ Client.id m = Client.id canonical).
    { exists (Client.draft st env body). split; [|by rewrite Hid].
      apply elem_of_app. right. apply list_elem_of_here. }
    rewrite (reconcile_hit _ _ Hhit).
    split; [reflexivity|]. split; [apply length_fmap|]. split.
    + rewrite list_lookup_fmap, lookup_app_r, Nat.sub_diag by lia.
      cbn. rewrite Hid. cbn. by rewrite String.eqb_refl.
    + intros i m Hi Hne.
      rewrite list_lookup_fmap, lookup_app_l by (by eapply lookup_lt_Some).
      rewrite Hi. cbn. rewrite Hid.
      by destruct (String.eqb_spec (Client.id m) (Client.tempId env)).
Qed.

(** The draft [sendMessage] emits comes back from the server under the
    temporary id it was sent with. *)
Lemma server_keeps_temp_id senv st cenv body :
  exists fields,
    Server.messageObject senv (Client.encode (Client.draft st cenv body)) = Ok (JObj fields)
    /\ assoc "id" fields = JStr (Client.tempId cenv).
Proof.
  eexists. split; [apply messageObject_of_object|]. reflexivity.
Qed.

Example canonical_of_optimistic : Roundtrip.canonical = Some Roundtrip.echoed.
Proof. reflexivity. Qed.

Lemma C3_optimistic_copy_is_replaced :
  (length (Client.reconcile Recon.local Recon.update) = 2%nat
   /\ Client.reconcile Recon.local Recon.update !! 0%nat = Some Recon.update
   /\ Client.reconcile Recon.local Recon.update !! 1%nat = Some (Recon.entry "m_2" "there"))
  /\ Client.reconcile Recon.local Recon.unseen = Recon.local ++ [Recon.unseen]
  /\ (let sent := (Client.sendMessage Recon.provider Sample.client_env "hi").1 in
      let after := Client.onMessageReceived sent Recon.canonical in
      Client.messages sent = Recon.local ++ [Client.draft Recon.provider Sample.client_env "hi"]
      /\ length (Client.messages after) = 3%nat
      /\ Client.messages after !! 2%nat = Some Recon.canonical
      /\ Client.messages after !! 0%nat = Some (Recon.entry "tmp_1" "hi")).
Proof.
  split; [|split].
  - destruct (C3_replace_by_id_else_append Recon.local Recon.update
                Recon.provider Sample.client_env "hi" Recon.canonical)
      as [[(_ & Hlen & Hat)|(Hmiss & _)] _].
    + split; [exact Hlen|]. split.
      * exact (Hat 0%nat (Recon.entry "tmp_1" "hi") eq_refl).
      * exact (Hat 1%nat (Recon.entry "m_2" "there") eq_refl).
    + destruct (Hmiss (Recon.entry "tmp_1" "hi")); [apply list_elem_of_here | reflexivity].
  - destruct (C3_replace_by_id_else_append Recon.local Recon.unseen
                Recon.provider Sample.client_env "hi" Recon.canonical)
      as [[((m & Hin & Hid) & _)|(_ & Happend)] _]; [|exact Happend].
    apply elem_of_cons in Hin as [->|Hin]; [discriminate Hid|].
    apply list_elem_of_singleton in Hin as ->. discriminate Hid.
  - destruct (C3_replace_by_id_else_append Recon.local Recon.update
                Recon.provider Sample.client_env "hi" Recon.canonical)
      as [_ Hsent].
    destruct (Hsent eq_refl eq_refl) as (Hlist & Hlen & Hlast & Hrest).
    cbn zeta. split; [exact Hlist|]. split; [exact Hlen|]. split; [exact Hlast|].
    apply (Hrest 0%nat (Recon.entry "tmp_1" "hi")); [reflexivity | discriminate].
Defined.

(** C9. While the connection is down (no socket yet, or a socket whose
    [connected] is false) every send attempt is rejected on the spot:
    [sendMessage] only warns, leaving the provider state, and so the
    message list, as they were and emitting nothing; [handleSend] of the
    page changes no provider state and emits nothing either; and nothing
    was put aside for later, for the next [connect] emits [user:join]
    and no message. *)
Theorem C9_send_while_disconnected_is_rejected st page env body sid :
  Client.offline st = true ->
  Client.sendMessage st env body = (st, [Client.Warn "Socket not connected, cannot send message"])
  /\ (Client.handleSend st page env).1.1 = st
  /\ (forall event, client_emits event (Client.handleSend st page env).2 = false)
  /\ (Client.connected st = false ->
      Client.handleSend st page env = (st, page, [])
      \/ Client.handleSend st page env
         = (st, page, [Client.Warn "Cannot send message: socket is not connected"]))
  /\ client_emits "event:message" (Client.step st env (Client.Connect sid)).2 = false.
Proof.
  intros Hoff.
  assert (Hsend : forall text, Client.sendMessage st env text
                    = (st, [Client.Warn "Socket not connected, cannot send message"])).
  { intros text. unfold Client.sendMessage. by rewrite Hoff. }
  split; [apply Hsend|].
  unfold Client.handleSend. rewrite Hsend.
  repeat split.
  - destruct (String.eqb _ ""); [reflexivity|].
    destruct (negb (Client.connected st)); [reflexivity|].
    destruct (_ && _); reflexivity.
  - intros event.
    destruct (String.eqb _ ""); [reflexivity|].
    destruct (negb (Client.connected st)); [reflexivity|].
    destruct (_ && _); reflexivity.
  - intros ->. destruct (String.eqb _ ""); [by left | by right].
  - unfold Client.step. destruct (Client.socket st); reflexivity.
Qed.

Lemma C9_offline_send_changes_nothing :
  Client.sendMessage Sample.offline_provider Sample.client_env "hi"
    = (Sample.offline_provider, [Client.Warn "Socket not connected, cannot send message"])
  /\ (Client.handleSend Sample.offline_provider (Sample.page "hi") Sample.client_env).1.1
     = Sample.offline_provider.
Proof.
  destruct (C9_send_while_disconnected_is_rejected Sample.offline_provider
              (Sample.page "hi") Sample.client_env "hi" "s9") as (Hsend & Hpage & _);
    [reflexivity | split; assumption].
Defined.

(** ** What the server emits at all *)

Section Emissions.
Context `{JsonCodec}.

Lemma emitted_events_app effs effs' :
  emitted_events (effs ++ effs') = emitted_events effs ++ emitted_events effs'.
Proof. unfold emitted_events. apply omap_app. Qed.

Lemma relay_part_emits_nothing srv env obj :
  emitted_events (relay_part srv env obj) = [].
Proof.
  unfold relay_part. destruct (Server.pub srv); [|reflexivity].
  destruct (Server.publish_outcome env); reflexivity.
Qed.

Lemma fanout_emits_message obj fields :
  emitted_events [fanout obj fields] = ["message"].
Proof. unfold fanout. destruct (truthy _); reflexivity. Qed.

Lemma join_room_run sid p :
  Server.on_join_room sid p = ([], Ok tt)
  \/ exists roomId,
       truthy p = true /\ get p "roomId" = Ok roomId /\ truthy roomId = true
       /\ Server.on_join_room sid p =
          ([SocketJoin sid roomId; SocketEmit sid "joined_room" (JObj [("roomId", roomId)])],
           Ok tt).
Proof.
  unfold Server.on_join_room.
  destruct (truthy p) eqn:Hp.
  - destruct p; try discriminate Hp; cbn;
      try (left; reflexivity);
      match goal with
      | |- context [truthy ?v] =>
          destruct (truthy v) eqn:Hv; [right; exists v; repeat split; assumption | left; reflexivity]
      end.
  - cbn. rewrite Hp. left; reflexivity.
Qed.

Lemma leave_room_emits_nothing sid p :
  emitted_events (effects (Server.on_leave_room sid p)) = [].
Proof.
  unfold Server.on_leave_room.
  destruct (truthy p) eqn:Hp.
  - destruct p; try discriminate Hp; cbn; try reflexivity;
      match goal with |- context [truthy ?v] => destruct (truthy v); reflexivity end.
  - cbn. rewrite Hp. reflexivity.
Qed.

Lemma sub_message_run channel message :
  Server.on_sub_message channel message = ([], Ok tt)
  \/ (exists parsed, JSON_parse message = Some parsed
        /\ Server.on_sub_message channel message = ([IoEmit "message" parsed], Ok tt))
  \/ (JSON_parse message = None
        /\ Server.on_sub_message channel message =
           ([Console LogWarn "[redis sub] invalid JSON on Messages channel"
               (ArgErr (SyntaxError "Unexpected token in JSON"))], Ok tt)).
Proof.
  unfold Server.on_sub_message, parse.
  destruct (String.eqb channel "Messages"); [|by left].
  destruct (JSON_parse message) as [parsed|]; right; [left; eauto | right; eauto].
Qed.

(** Whatever the event, a handler emits nothing but [joined_room] and
    [message]. *)
Lemma handle_emits srv env ev name :
  name ∈ emitted_events (effects (Server.handle srv env ev)) ->
  name = "joined_room" \/ name = "message".
Proof.
  destruct ev as [sid|sid ename p|sid reason|sid err|channel message|on_pub err];
    cbn [Server.handle].
  - cbn. by intros ?%not_elem_of_nil.
  - destruct (Server.sockets srv !! sid); [|cbn; by intros ?%not_elem_of_nil].
    unfold Server.listener.
    destruct (String.eqb ename "join_room").
    { destruct (join_room_run sid p) as [->|(roomId & _ & _ & _ & ->)]; cbn.
      - by intros ?%not_elem_of_nil.
      - intros ->%list_elem_of_singleton. by left. }
    destruct (String.eqb ename "leave_room").
    { rewrite leave_room_emits_nothing. by intros ?%not_elem_of_nil. }
    destruct (String.eqb ename "event:message");
      [|destruct (String.eqb ename "error"); cbn; by intros ?%not_elem_of_nil].
    destruct (Server.messageObject env p) as [obj|e] eqn:E.
    + destruct (messageObject_is_object _ _ _ E) as [fields ->].
      rewrite (event_message_run _ _ _ _ E). cbn [effects fst].
      change ([?a; ?b] ++ ?c) with ([a] ++ [b] ++ c).
      rewrite !emitted_events_app, fanout_emits_message, relay_part_emits_nothing.
      cbn. intros ->%list_elem_of_singleton. by right.
    + rewrite (event_message_throw _ _ _ _ E). cbn. by intros ?%not_elem_of_nil.
  - destruct (Server.sockets srv !! sid); cbn; by intros ?%not_elem_of_nil.
  - destruct (Server.sockets srv !! sid); cbn; by intros ?%not_elem_of_nil.
  - destruct (Server.pub srv); [|cbn; by intros ?%not_elem_of_nil].
    destruct (sub_message_run channel message) as [->|[(parsed & _ & ->)|(_ & ->)]]; cbn.
    + by intros ?%not_elem_of_nil.
    + intros ->%list_elem_of_singleton. by right.
    + by intros ?%not_elem_of_nil.
  - destruct (Server.pub srv); cbn; by intros ?%not_elem_of_nil.
Qed.

Lemma step_trace srv env ev :
  Server.trace (Server.step srv env ev) = effects (Server.handle srv env ev).
Proof. unfold Server.step. destruct (Server.observe _ _). reflexivity. Qed.

Lemma run_emits steps : forall srv name,
  name ∈ emitted_events (Server.run srv steps).1.2 ->
  name = "joined_room" \/ name = "message".
Proof.
  induction steps as [|[env ev] rest IH]; intros srv name.
  - cbn. by intros ?%not_elem_of_nil.
  - cbn [Server.run].
    destruct (Server.run (Server.service (Server.step srv env ev)) rest)
      as [[srv' effs] ds] eqn:R.
    cbn [fst snd]. rewrite emitted_events_app, elem_of_app.
    intros [Hin|Hin].
    + rewrite step_trace in Hin. by apply handle_emits in Hin.
    + apply (IH (Server.service (Server.step srv env ev))). by rewrite R.
Qed.

End Emissions.

(** ** Typing *)

(** Socket A reports typing and sends nothing more.  The server does
    nothing on that event, and in the whole session, which runs on for ten
    minutes, it emits no stop notification: the only emission is the later
    message.  The client that saw alice start typing still lists her. *)
Lemma C6_no_stop_notification_is_ever_emitted :
  let r := Server.run (H := Json.codec) Sample.relayed Typing.session in
  Server.trace (Server.step (H := Json.codec) Sample.relayed Sample.env
                  (Server.Inbound "A" "user:typing" Typing.who)) = []
  /\ emitted_events r.1.2 = ["message"]
  /\ length (filter (fun name => name = "user:stop-typing") (emitted_events r.1.2)) <> 1%nat
  /\ Client.typingUsers (Client.run Sample.provider Typing.seen) = ["alice"].
Proof. vm_compute. repeat split. discriminate. Qed.

Lemma include_keeps name names other : name ∈ names -> name ∈ Client.include names other.
Proof.
  intros Hin. unfold Client.include.
  destruct (existsb _ names); [exact Hin | apply elem_of_app; by left].
Qed.

Lemma include_adds names name : name ∈ Client.include names name.
Proof.
  unfold Client.include. destruct (existsb _ names) eqn:E.
  - apply existsb_exists in E as (n & Hin & ->%String.eqb_eq). by apply list_elem_of_In.
  - apply elem_of_app. right. apply list_elem_of_here.
Qed.

Lemma exclude_keeps name names other :
  other <> name -> name ∈ names -> name ∈ Client.exclude names other.
Proof.
  intros Hne Hin. unfold Client.exclude. apply list_elem_of_filter. split; [|exact Hin].
  apply String.eqb_neq. congruence.
Qed.

Lemma exclude_removes names name : name ∉ Client.exclude names name.
Proof.
  unfold Client.exclude. intros [Hneq _]%list_elem_of_filter.
  by rewrite String.eqb_refl in Hneq.
Qed.

Lemma client_step_keeps_typing st env ev name :
  not_stop_for name ev ->
  name ∈ Client.typingUsers st ->
  name ∈ Client.typingUsers (Client.step st env ev).1.
Proof.
  intros Hev Hin. unfold Client.step.
  destruct ev; cbn; try exact Hin;
    destruct (Client.socket st); cbn; try exact Hin.
  - by do 2 apply include_keeps.
  - cbn in Hev. by do 2 (apply exclude_keeps; [exact Hev|]).
Qed.

Lemma client_run_keeps_typing steps : forall st name,
  Forall (fun step => not_stop_for name step.2) steps ->
  name ∈ Client.typingUsers st ->
  name ∈ Client.typingUsers (Client.run st steps).
Proof.
  induction steps as [|[env ev] rest IH]; intros st name Hall Hin; [exact Hin|].
  inversion Hall as [|? ? Hev Hrest]; subst.
  cbn. apply IH; [exact Hrest|]. by apply client_step_keeps_typing.
Qed.

Section TypingFacts.
Context `{JsonCodec}.

(** C6, as the code has it.  There is no expiry.  The server has no
    listener, no state and no timer for typing: a [user:typing] event of
    any socket has no effect at all, and whatever events follow, no
    handler ever emits [user:stop-typing] (handlers emit [joined_room] and
    [message] only).  In the client a name enters [typingUsers] when
    [user:typing] is received and leaves it only when a [user:stop-typing]
    for that name is received: as long as none arrives it stays listed,
    and when one arrives it is removed. *)
Theorem C6_typing_ends_only_on_an_explicit_stop
    srv env sid p steps st st' cenv uid name csteps :
  Client.socket st <> None ->
  Client.socket st' <> None ->
  Forall (fun step => not_stop_for name step.2) csteps ->
  Server.step srv env (Server.Inbound sid "user:typing" p)
    = {| Server.service := srv; Server.trace := [];
         Server.delivered := []; Server.result := Ok tt |}
  /\ ("user:stop-typing" ∉ emitted_events (Server.run srv steps).1.2)
  /\ (let typing := (Client.step st cenv (Client.UserTyping uid name)).1 in
      name ∈ Client.typingUsers typing
      /\ name ∈ Client.typingUsers (Client.run typing csteps))
  /\ name ∉ Client.typingUsers (Client.step st' cenv (Client.UserStopTyping uid name)).1.
Proof.
  intros Hsock Hsock' Hall. split; [|split; [|split]].
  - unfold Server.step, Server.handle.
    destruct (Server.sockets srv !! sid); cbn; by rewrite with_sockets_same.
  - intros Hin. apply run_emits in Hin as [E|E]; discriminate E.
  - assert (Hin : name ∈ Client.typingUsers (Client.step st cenv (Client.UserTyping uid name)).1).
    { unfold Client.step. destruct (Client.socket st); [|done]. cbn.
      apply include_keeps, include_adds. }
    cbn zeta. split; [exact Hin | by apply client_run_keeps_typing].
  - unfold Client.step. destruct (Client.socket st'); [|done]. cbn.
    intros Hbad. apply list_elem_of_filter in Hbad as [_ Hbad].
    by apply exclude_removes in Hbad.
Qed.

End TypingFacts.

Lemma C6_alice_stays_listed_until_stopped :
  Server.step (H := Json.codec) Sample.relayed Sample.env
    (Server.Inbound "A" "user:typing" Typing.who)
    = {| Server.service := Sample.relayed; Server.trace := [];
         Server.delivered := []; Server.result := Ok tt |}
  /\ ("user:stop-typing" ∉
        emitted_events (Server.run (H := Json.codec) Sample.relayed Typing.session).1.2)
  /\ (let typing :=
        (Client.step Sample.provider Sample.client_env (Client.UserTyping "u_1" "alice")).1 in
      "alice" ∈ Client.typingUsers typing
      /\ "alice" ∈ Client.typingUsers (Client.run typing (tail Typing.seen)))
  /\ "alice" ∉ Client.typingUsers
                 (Client.step (Client.run Sample.provider Typing.seen) Sample.client_env
                    (Client.UserStopTyping "u_1" "alice")).1.
Proof.
  apply (C6_typing_ends_only_on_an_explicit_stop (H := Json.codec)
           Sample.relayed Sample.env "A" Typing.who Typing.session
           Sample.provider (Client.run Sample.provider Typing.seen) Sample.client_env
           "u_1" "alice" (tail Typing.seen)).
  - discriminate.
  - discriminate.
  - repeat constructor.
Defined.

(** ** Presence *)

(** Socket C joins room X, where A and B already are.  All the server
    sends is the [joined_room] acknowledgement to C: no [users:online]
    snapshot reaches it, and A and B are told nothing. *)
Lemma C7_join_sends_no_presence_snapshot :
  let o := Server.step (H := Json.codec) Sample.relayed Sample.env
             (Server.Inbound "C" "join_room" (JObj [("roomId", JStr "X")])) in
  Server.delivered o =
    [{| Server.to := "C"; Server.event := "joined_room";
        Server.payload := JObj [("roomId", JStr "X")] |}]
  /\ ("users:online" ∉ (Server.event <$> Server.delivered o))
  /\ Server.sockets (Server.service o) !! "C" = Some [JStr "C"; JStr "X"].
Proof.
  vm_compute. repeat split.
  intros Hin. apply list_elem_of_singleton in Hin. discriminate Hin.
Qed.

Section PresenceFacts.
Context `{JsonCodec}.

(** C7, as the code has it.  The server keeps no presence.  On a
    [join_room] whose payload has a truthy [roomId], the socket is added to
    the room and the joining client is sent one event, the acknowledgement
    [joined_room { roomId }], while nobody else is sent anything; no handler
    ever emits [users:online], [user:joined] or [user:left].  The client
    would replace its set of online users by the list of a [users:online]
    event if one arrived. *)
Theorem C7_join_is_acknowledged_without_presence
    srv env sid rooms p roomId steps st cenv users :
  Server.sockets srv !! sid = Some rooms ->
  truthy p = true ->
  get p "roomId" = Ok roomId ->
  truthy roomId = true ->
  Client.socket st <> None ->
  (let o := Server.step srv env (Server.Inbound sid "join_room" p) in
   Server.trace o =
     [SocketJoin sid roomId; SocketEmit sid "joined_room" (JObj [("roomId", roomId)])]
   /\ Server.delivered o =
        [{| Server.to := sid; Server.event := "joined_room";
            Server.payload := JObj [("roomId", roomId)] |}]
   /\ Server.sockets (Server.service o) !! sid
        = Some (foldl Server.add_room rooms (Server.room_keys roomId)))
  /\ (forall name, name ∈ ["users:online"; "user:joined"; "user:left"] ->
        name ∉ emitted_events (Server.run srv steps).1.2)
  /\ Client.onlineUsers (Client.step st cenv (Client.UsersOnline users)).1
       = list_to_set users.
Proof.
  intros Hsid Hp Hget Hroom Hsock. split; [|split].
  - cbn zeta. unfold Server.step, Server.handle. rewrite Hsid.
    change (Server.listener srv env sid "join_room" p) with (Server.on_join_room sid p).
    unfold Server.on_join_room. rewrite Hp, Hget. cbn. rewrite Hroom. cbn.
    assert (Hafter :
      alter (fun rooms0 => foldl Server.add_room rooms0 (Server.room_keys roomId)) sid
        (Server.sockets srv) !! sid
      = Some (foldl Server.add_room rooms (Server.room_keys roomId))).
    { rewrite lookup_alter_eq, Hsid. reflexivity. }
    unfold Server.deliveries, Server.recipients. cbn [Server.emitted].
    rewrite decide_True by (rewrite Hafter; eauto).
    cbn. repeat split. exact Hafter.
  - intros name Hname Hin. apply run_emits in Hin as [->| ->];
      repeat (apply elem_of_cons in Hname as [E|Hname]; [discriminate E|]);
      by apply not_elem_of_nil in Hname.
  - unfold Client.step. destruct (Client.socket st); [reflexivity | done].
Qed.

End PresenceFacts.

Lemma C7_socket_C_joins_room_X :
  (let o := Server.step (H := Json.codec) Sample.relayed Sample.env
              (Server.Inbound "C" "join_room" (JObj [("roomId", JStr "X")])) in
   Server.trace o =
     [SocketJoin "C" (JStr "X");
      SocketEmit "C" "joined_room" (JObj [("roomId", JStr "X")])]
   /\ Server.delivered o =
        [{| Server.to := "C"; Server.event := "joined_room";
            Server.payload := JObj [("roomId", JStr "X")] |}]
   /\ Server.sockets (Server.service o) !! "C" = Some [JStr "C"; JStr "X"])
  /\ (forall name, name ∈ ["users:online"; "user:joined"; "user:left"] ->
        name ∉ emitted_events
                 (Server.run (H := Json.codec) Sample.relayed Typing.session).1.2)
  /\ Client.onlineUsers
       (Client.step Sample.provider Sample.client_env (Client.UsersOnline ["u_1"; "u_2"])).1
     = list_to_set ["u_1"; "u_2"].
Proof.
  apply (C7_join_is_acknowledged_without_presence (H := Json.codec)
           Sample.relayed Sample.env "C" [JStr "C"] (JObj [("roomId", JStr "X")]) (JStr "X")
           Typing.session Sample.provider Sample.client_env ["u_1"; "u_2"]);
    try reflexivity.
  discriminate.
Defined.

(** ** The relay *)

Section RelayFacts.
Context `{JsonCodec}.

(** The subscription handler of a process: it returns, leaves the process
    as it was and publishes nothing, whatever arrives. *)
Lemma relay_step srv env channel message :
  let o := Server.step srv env (Server.RedisMessage channel message) in
  Server.service o = srv
  /\ Server.result o = Ok tt
  /\ Cluster.publications (Server.trace o) = [].
Proof.
  cbn zeta. unfold Server.step, Server.handle. cbn [Server.transport].
  destruct (Server.pub srv) eqn:Hpub.
  - destruct (sub_message_run channel message) as [->|[(parsed & _ & ->)|(_ & ->)]];
      cbn; by rewrite with_sockets_same.
  - cbn. by rewrite with_sockets_same.
Qed.

(** A payload that parses is handed to every socket of the process. *)
Lemma relay_step_parsed srv env message parsed :
  Server.pub srv = true ->
  JSON_parse message = Some parsed ->
  let o := Server.step srv env (Server.RedisMessage "Messages" message) in
  Server.trace o = [IoEmit "message" parsed]
  /\ Server.delivered o
     = (fun sid => {| Server.to := sid; Server.event := "message"; Server.payload := parsed |})
         <$> Server.members (Server.sockets srv) [].
Proof.
  intros Hpub Hparse. cbn zeta. unfold Server.step, Server.handle. rewrite Hpub.
  unfold Server.on_sub_message, parse. rewrite Hparse. cbn.
  by rewrite app_nil_r.
Qed.

(** A payload that does not parse is answered with a warning only. *)
Lemma relay_step_malformed srv env message :
  Server.pub srv = true ->
  JSON_parse message = None ->
  Server.step srv env (Server.RedisMessage "Messages" message)
  = {| Server.service := srv;
       Server.trace := [Console LogWarn "[redis sub] invalid JSON on Messages channel"
                          (ArgErr (SyntaxError "Unexpected token in JSON"))];
       Server.delivered := [];
       Server.result := Ok tt |}.
Proof.
  intros Hpub Hparse. unfold Server.step, Server.handle. rewrite Hpub.
  unfold Server.on_sub_message, parse. rewrite Hparse. cbn.
  by rewrite with_sockets_same.
Qed.

Lemma relay_from_quiet srvs : forall i env channel message,
  (Cluster.relay_from i env channel message srvs).1.1 = srvs
  /\ (Cluster.relay_from i env channel message srvs).1.2 = [].
Proof.
  induction srvs as [|srv rest IH]; intros i env channel message; [by split|].
  cbn [Cluster.relay_from].
  destruct (IH (S i) env channel message) as [Hsrvs Hpubs].
  destruct (Cluster.relay_from (S i) env channel message rest) as [[rest' pubs] ds].
  cbn in Hsrvs, Hpubs. subst rest' pubs.
  destruct (relay_step srv env channel message) as (Hsrv & _ & Hnone).
  cbn. by rewrite Hsrv, Hnone.
Qed.

Lemma relay_keeps_published c env :
  Cluster.published (Cluster.step c (Cluster.Relay env)) = Cluster.published c
  /\ Cluster.instances (Cluster.step c (Cluster.Relay env)) = Cluster.instances c.
Proof.
  unfold Cluster.step. destruct (Cluster.in_flight c) as [|[channel message] waiting];
    [by split|].
  destruct (relay_from_quiet (Cluster.instances c) 0%nat env channel message) as [Hsrvs Hpubs].
  destruct (Cluster.relay_from 0 env channel message (Cluster.instances c))
    as [[srvs pubs] ds].
  cbn in Hsrvs, Hpubs. subst srvs pubs. cbn. by rewrite app_nil_r.
Qed.

Lemma relays_keep_published relays : forall c,
  Forall (fun s => Cluster.is_local s = false) relays ->
  Cluster.published (Cluster.run c relays) = Cluster.published c.
Proof.
  induction relays as [|s relays IH]; intros c Hall; [reflexivity|].
  inversion Hall as [|? ? Hs Hrest]; subst.
  destruct s as [i env ev|env]; [discriminate Hs|].
  unfold Cluster.run in *. cbn [foldl].
  rewrite IH by exact Hrest. apply relay_keeps_published.
Qed.

(** The publications of a run depend on its local steps only: the relay
    steps can be taken out, however many there are. *)
Lemma published_by_local_steps steps : forall c c',
  Cluster.instances c = Cluster.instances c' ->
  Cluster.published c = Cluster.published c' ->
  Cluster.published (Cluster.run c steps)
  = Cluster.published (Cluster.run c' (filter (fun s => Cluster.is_local s = true) steps)).
Proof.
  induction steps as [|s steps IH]; intros c c' Hi Hp; [exact Hp|].
  destruct s as [i env ev|env].
  - rewrite filter_cons_True by reflexivity.
    unfold Cluster.run in *. cbn [foldl]. apply IH.
    + cbn [Cluster.step]. rewrite <- Hi.
      destruct (Cluster.instances c !! i); [reflexivity | exact Hi].
    + cbn [Cluster.step]. rewrite <- Hi.
      destruct (Cluster.instances c !! i); [cbn; by rewrite Hp | exact Hp].
  - rewrite filter_cons_False by discriminate.
    unfold Cluster.run in *. cbn [foldl]. apply IH.
    + rewrite <- Hi. apply relay_keeps_published.
    + rewrite <- Hp. apply relay_keeps_published.
Qed.

Lemma publications_of_submit srv env obj fields :
  Server.pub srv = true ->
  Server.publish_outcome env = None ->
  Cluster.publications
    ([Console LogInfo "Received event:message:" (ArgVal obj); fanout obj fields]
       ++ relay_part srv env obj)
  = [("Messages", JSON_stringify obj)].
Proof.
  intros Hpub Hok. unfold relay_part, fanout. rewrite Hpub, Hok.
  destruct (truthy _); reflexivity.
Qed.

(** Only the [event:message] handler publishes. *)
Lemma only_submits_publish srv env ev :
  Cluster.publications (Server.trace (Server.step srv env ev)) <> [] ->
  exists sid msg, ev = Server.Inbound sid "event:message" msg.
Proof.
  rewrite step_trace.
  destruct ev as [sid|sid ename p|sid reason|sid err|channel message|on_pub err];
    cbn [Server.handle].
  - intros Hp; by destruct Hp.
  - destruct (Server.sockets srv !! sid); [|intros Hp; by destruct Hp].
    unfold Server.listener.
    destruct (String.eqb ename "join_room").
    { destruct (join_room_run sid p) as [->|(roomId & _ & _ & _ & ->)];
        intros Hp; by destruct Hp. }
    destruct (String.eqb ename "leave_room").
    { unfold Server.on_leave_room.
      destruct (truthy p) eqn:Hp; cbn.
      - destruct p; try discriminate Hp; cbn; try (intros Hq; by destruct Hq);
          match goal with |- context [truthy ?v] => destruct (truthy v) end;
          intros Hq; by destruct Hq.
      - rewrite Hp. intros Hq; by destruct Hq. }
    destruct (String.eqb_spec ename "event:message") as [->|_];
      [eauto | destruct (String.eqb ename "error"); intros Hp; by destruct Hp].
  - destruct (Server.sockets srv !! sid); intros Hp; by destruct Hp.
  - destruct (Server.sockets srv !! sid); intros Hp; by destruct Hp.
  - intros Hp. destruct Hp.
    destruct (relay_step srv env channel message) as (_ & _ & Hnone).
    by rewrite step_trace in Hnone.
  - destruct (Server.pub srv); intros Hp; by destruct Hp.
Qed.

(** C8. A payload of the relay subscription that fails to parse is
    dropped: the handler logs one warning, returns normally (no exception
    leaves it), leaves the process as it was, and neither delivers
    anything to a local socket nor publishes anything. *)
Theorem C8_malformed_relay_payload_is_dropped srv env payload :
  Server.pub srv = true ->
  JSON_parse payload = None ->
  let o := Server.step srv env (Server.RedisMessage "Messages" payload) in
  Server.result o = Ok tt
  /\ Server.delivered o = []
  /\ Server.service o = srv
  /\ Server.trace o =
       [Console LogWarn "[redis sub] invalid JSON on Messages channel"
          (ArgErr (SyntaxError "Unexpected token in JSON"))]
  /\ emitted_events (Server.trace o) = []
  /\ Cluster.publications (Server.trace o) = [].
Proof.
  intros Hpub Hparse. cbn zeta.
  rewrite (relay_step_malformed _ _ _ Hpub Hparse). by repeat split.
Qed.

End RelayFacts.

Lemma C8_truncated_payload_is_dropped :
  let o := Server.step (H := Json.codec) Sample.relayed Sample.env
             (Server.RedisMessage "Messages" "{oops") in
  Server.result o = Ok tt
  /\ Server.delivered o = []
  /\ Server.service o = Sample.relayed
  /\ Server.trace o =
       [Console LogWarn "[redis sub] invalid JSON on Messages channel"
          (ArgErr (SyntaxError "Unexpected token in JSON"))]
  /\ emitted_events (Server.trace o) = []
  /\ Cluster.publications (Server.trace o) = [].
Proof.
  apply (C8_malformed_relay_payload_is_dropped (H := Json.codec)
           Sample.relayed Sample.env "{oops"); reflexivity.
Defined.

Section Loop.
Context `{JsonCodec}.

(** C5. A message that arrives on the relay subscription is handed to
    the local sockets and is not published again: the subscription handler
    emits it to every socket of the process and publishes nothing, so a
    relay step leaves the list of publications as it is, and the
    publications of any run are those of its local steps, among which
    only the [event:message] events publish.  A draft
    submitted to a process whose relay is configured, with the publish
    resolving, is published once on [Messages], and it is still there
    exactly once after any number of relay steps, whatever the number of
    processes that receive it. *)
Theorem C5_relayed_messages_are_not_republished
    c i srv sid rooms msg env renv steps relays payload parsed :
  Cluster.instances c !! i = Some srv ->
  Server.pub srv = true ->
  Server.sockets srv !! sid = Some rooms ->
  is_draft msg = true ->
  Server.publish_outcome env = None ->
  Forall (fun s => Cluster.is_local s = false) relays ->
  JSON_parse payload = Some parsed ->
  (let o := Server.step srv renv (Server.RedisMessage "Messages" payload) in
   Server.trace o = [IoEmit "message" parsed]
   /\ Server.delivered o
      = (fun to => {| Server.to := to; Server.event := "message"; Server.payload := parsed |})
          <$> Server.members (Server.sockets srv) []
   /\ Cluster.publications (Server.trace o) = [])
  /\ Cluster.published (Cluster.step c (Cluster.Relay renv)) = Cluster.published c
  /\ Cluster.published (Cluster.run c steps)
     = Cluster.published
         (Cluster.run c (filter (fun s => Cluster.is_local s = true) steps))
  /\ (forall srv' env' ev,
        Cluster.publications (Server.trace (Server.step srv' env' ev)) <> [] ->
        exists sid' msg', ev = Server.Inbound sid' "event:message" msg')
  /\ exists fields,
       Server.messageObject env msg = Ok (JObj fields)
       /\ let submitted :=
            Cluster.step c (Cluster.Local i env (Server.Inbound sid "event:message" msg)) in
          Cluster.published submitted
            = Cluster.published c ++ [("Messages", JSON_stringify (JObj fields))]
          /\ Cluster.published (Cluster.run submitted relays)
            = Cluster.published c ++ [("Messages", JSON_stringify (JObj fields))].
Proof.
  intros Hi Hpub Hsid Hdraft Hok Hrelays Hparse.
  split; [|split; [|split; [|split]]].
  - cbn zeta. destruct (relay_step_parsed srv renv payload parsed Hpub Hparse) as [Ht Hd].
    rewrite Ht. split; [reflexivity|]. split; [exact Hd | reflexivity].
  - apply relay_keeps_published.
  - by apply published_by_local_steps.
  - apply only_submits_publish.
  - destruct (draft_has_messageObject env msg Hdraft) as [fields E].
    exists fields. split; [exact E|]. cbn zeta.
    assert (Hsub :
      Cluster.published
        (Cluster.step c (Cluster.Local i env (Server.Inbound sid "event:message" msg)))
      = Cluster.published c ++ [("Messages", JSON_stringify (JObj fields))]).
    { cbn [Cluster.step]. rewrite Hi. cbn [Cluster.published].
      rewrite (submit_step _ _ _ _ _ _ Hsid E). cbn [Server.trace].
      by rewrite publications_of_submit. }
    split; [exact Hsub|]. by rewrite relays_keep_published.
Qed.

End Loop.

Lemma C5_one_publication_after_two_relay_rounds :
  let submitted :=
    Cluster.step (H := Json.codec) Sample.cluster
      (Cluster.Local 0 Sample.env (Server.Inbound "A" "event:message" Sample.to_room)) in
  let relayed :=
    Cluster.run (H := Json.codec) submitted
      [Cluster.Relay (Sample.later 5); Cluster.Relay (Sample.later 9)] in
  length (Cluster.published relayed) = 1%nat.
Proof.
  assert (Hrelays : Forall (fun s => Cluster.is_local s = false)
                      [Cluster.Relay (Sample.later 5); Cluster.Relay (Sample.later 9)])
    by repeat constructor.
  destruct (C5_relayed_messages_are_not_republished (H := Json.codec)
              Sample.cluster 0%nat Sample.relayed "A" [JStr "A"; JStr "X"] Sample.to_room
              Sample.env (Sample.later 5) []
              [Cluster.Relay (Sample.later 5); Cluster.Relay (Sample.later 9)]
              "[1]" (JArr [JNum 1])
              eq_refl eq_refl eq_refl eq_refl eq_refl Hrelays eq_refl)
    as (_ & _ & _ & _ & fields & _ & _ & Hrun).
  cbn zeta. rewrite Hrun. reflexivity.
Defined.

(** ** Room scope *)

Lemma members_spec (t : gmap string (list JsVal)) target sid :
  sid ∈ Server.members t target <->
  exists rooms, t !! sid = Some rooms /\ Server.addressed target rooms = true.
Proof.
  unfold Server.members. rewrite list_elem_of_fmap. split.
  - intros ([sid' rooms] & -> & Hin). cbn.
    apply list_elem_of_filter in Hin as [Haddr Hin].
    apply elem_of_map_to_list in Hin. eauto.
  - intros (rooms & Hlook & Haddr). exists (sid, rooms). split; [reflexivity|].
    apply list_elem_of_filter. split; [exact Haddr|]. by apply elem_of_map_to_list.
Qed.

(** The local fanout of a room message reaches the sockets that are in
    the room and no other. *)
Lemma local_fanout_is_scoped (t : gmap string (list JsVal)) (room event : string) p sid :
  sid ∈ Server.recipients t (IoToEmit (JStr room) event p) <->
  exists rooms, t !! sid = Some rooms /\ Server.in_room rooms (JStr room) = true.
Proof.
  cbn [Server.recipients Server.room_keys]. rewrite members_spec.
  split; intros (rooms & Hlook & Hin); exists rooms; (split; [exact Hlook|]).
  - cbn in Hin. by rewrite orb_false_r in Hin.
  - cbn. by rewrite orb_false_r.
Qed.

(** What arrives on the subscription and parses reaches every connected
    socket, whatever rooms it is in. *)
Lemma relay_reaches_every_socket `{JsonCodec} srv env message parsed sid rooms :
  Server.pub srv = true ->
  JSON_parse message = Some parsed ->
  Server.sockets srv !! sid = Some rooms ->
  {| Server.to := sid; Server.event := "message"; Server.payload := parsed |}
    ∈ Server.delivered (Server.step srv env (Server.RedisMessage "Messages" message)).
Proof.
  intros Hpub Hparse Hsid.
  destruct (relay_step_parsed srv env message parsed Hpub Hparse) as [_ ->].
  apply list_elem_of_fmap. exists sid. split; [reflexivity|].
  apply members_spec. exists rooms. by split.
Qed.

(** C4.  The room message of socket A, member of room X with B, reaches A
    and B by the local fanout; but the process is subscribed to the topic
    it publishes on, and the subscription handler emits what arrives to
    every socket: C, which is not in room X, receives the message too. *)
Theorem C4_relay_hands_room_message_to_non_member :
  let submitted :=
    Cluster.step (H := Json.codec) Sample.cluster
      (Cluster.Local 0 Sample.env (Server.Inbound "A" "event:message" Sample.to_room)) in
  let relayed := Cluster.step (H := Json.codec) submitted (Cluster.Relay (Sample.later 5)) in
  Server.in_room [JStr "C"] (JStr "X") = false
  /\ (fun d => Server.to d.2) <$> Cluster.inbox submitted = ["A"; "B"]
  /\ (fun d => Server.to d.2) <$> Cluster.inbox relayed = ["A"; "B"; "C"; "A"; "B"]
  /\ (fun d => (Server.event d, assoc "conversationId"
                                   match Server.payload d with JObj fs => fs | _ => [] end))
       <$> delivered_to "C" (snd <$> Cluster.inbox relayed)
     = [("message", JStr "X")].
Proof. vm_compute. repeat split. Qed.

(* ===================================================================== *)
(** * More of the server                                                  *)
(* ===================================================================== *)

(** ** Reconnection delay *)

(** X1. The delay [retryStrategy] answers for reconnection attempt
    [times] (1, 2, ...) starts at 2050 ms, never decreases from an attempt
    to the next, grows by 50 ms per attempt up to attempt 360 and stays at
    the 20000 ms ceiling from then on. *)
Theorem X1_retry_delay_is_bounded_and_monotone times :
  1 <= times ->
  2050 <= Backoff.retryStrategy times <= 20000
  /\ Backoff.retryStrategy times <= Backoff.retryStrategy (times + 1)
  /\ (times < 360 -> Backoff.retryStrategy times = 2000 + 50 * times)
  /\ (360 <= times -> Backoff.retryStrategy times = 20000).
Proof.
  intros Htimes. unfold Backoff.retryStrategy. repeat split; lia.
Qed.

Lemma X1_seventh_attempt_waits_2350 :
  2050 <= Backoff.retryStrategy 7 <= 20000
  /\ Backoff.retryStrategy 7 <= Backoff.retryStrategy (7 + 1)
  /\ (7 < 360 -> Backoff.retryStrategy 7 = 2000 + 50 * 7)
  /\ (360 <= 7 -> Backoff.retryStrategy 7 = 20000).
Proof. apply (X1_retry_delay_is_bounded_and_monotone 7). lia. Defined.

(** ** Local-only mode *)

Section LocalOnly.
Context `{JsonCodec}.

Lemma publications_app effs effs' :
  Cluster.publications (effs ++ effs')
  = Cluster.publications effs ++ Cluster.publications effs'.
Proof. unfold Cluster.publications. apply omap_app. Qed.

Lemma step_keeps_pub srv env ev :
  Server.pub (Server.service (Server.step srv env ev)) = Server.pub srv.
Proof. unfold Server.step. destruct (Server.observe _ _). reflexivity. Qed.

Lemma local_only_step_is_silent srv env ev :
  Server.pub srv = false ->
  Cluster.publications (Server.trace (Server.step srv env ev)) = [].
Proof.
  intros Hpub.
  destruct (Cluster.publications (Server.trace (Server.step srv env ev))) eqn:E;
    [reflexivity|].
  assert (Hne : Cluster.publications (Server.trace (Server.step srv env ev)) <> [])
    by (rewrite E; discriminate).
  apply only_submits_publish in Hne as (sid & msg & ->).
  rewrite <- E. rewrite step_trace. cbn [Server.handle].
  destruct (Server.sockets srv !! sid); [|reflexivity].
  change (Server.listener srv env sid "event:message" msg)
    with (Server.on_event_message srv env msg).
  destruct (Server.messageObject env msg) as [obj|e] eqn:Eobj.
  - destruct (messageObject_is_object _ _ _ Eobj) as [fields ->].
    rewrite (event_message_run _ _ _ _ Eobj). cbn [effects fst].
    unfold relay_part, fanout. rewrite Hpub.
    destruct (truthy _); reflexivity.
  - rewrite (event_message_throw _ _ _ _ Eobj). reflexivity.
Qed.

Lemma local_only_run_is_silent steps : forall srv,
  Server.pub srv = false ->
  Cluster.publications (Server.run srv steps).1.2 = [].
Proof.
  induction steps as [|[env ev] rest IH]; intros srv Hpub; [reflexivity|].
  cbn [Server.run].
  specialize (IH (Server.service (Server.step srv env ev))).
  destruct (Server.run (Server.service (Server.step srv env ev)) rest)
    as [[srv' effs] ds].
  cbn [fst snd] in *. rewrite publications_app, local_only_step_is_silent by exact Hpub.
  apply IH. by rewrite step_keeps_pub.
Qed.

(** X2. When [USE_REDIS] is off, or when setting up the Redis clients
    throws, the constructor still returns a service, one without a
    publisher and with no socket yet; and such a service never publishes
    to the broker, whatever events it handles afterwards, and ignores what
    a subscription would deliver. *)
Theorem X2_without_redis_the_service_is_local_only
    USE_REDIS redis_init steps env channel message :
  USE_REDIS = false \/ (exists e, redis_init = Throw e) ->
  exists srv,
    outcome (Server.constructor USE_REDIS redis_init) = Ok srv
    /\ Server.pub srv = false
    /\ Server.sockets srv = ∅
    /\ Cluster.publications (Server.run srv steps).1.2 = []
    /\ Server.trace (Server.step srv env (Server.RedisMessage channel message)) = [].
Proof.
  intros Hoff. exists {| Server.pub := false; Server.sockets := ∅ |}.
  split.
  - destruct Hoff as [->|[e ->]]; [reflexivity|].
    destruct USE_REDIS; reflexivity.
  - split; [reflexivity|]. split; [reflexivity|].
    split; [by apply local_only_run_is_silent | reflexivity].
Qed.

End LocalOnly.

Lemma X2_redis_setup_failure_falls_back :
  exists srv,
    outcome (Server.constructor true (Throw (Error "ECONNREFUSED"))) = Ok srv
    /\ Server.pub srv = false
    /\ Server.sockets srv = ∅
    /\ Cluster.publications
         (Server.run (H := Json.codec) srv
            [(Sample.env, Server.Connection "A");
             (Sample.env, Server.Inbound "A" "event:message" Sample.draft)]).1.2 = []
    /\ Server.trace (Server.step (H := Json.codec) srv Sample.env
                       (Server.RedisMessage "Messages" "[1]")) = [].
Proof.
  apply (X2_without_redis_the_service_is_local_only (H := Json.codec)
           true (Throw (Error "ECONNREFUSED"))).
  right. eexists. reflexivity.
Defined.

(** ** Payloads that are no draft, and a failing publish *)

Section OddPayloads.
Context `{JsonCodec}.

(** X3. An [event:message] whose payload is missing ([undefined]) or
    [null] is caught inside the handler: one error line is logged, no
    socket receives anything, nothing is published, the service is
    unchanged and the handler returns.  A payload that is a number, a
    boolean or an array is not rejected: it is read as a draft without any
    field, so a message with the synthesized id, the socket id as sender
    and the empty text is delivered to every connected socket. *)
Theorem X3_payloads_that_are_no_draft srv env sid rooms msg :
  Server.sockets srv !! sid = Some rooms ->
  is_draft msg = false ->
  let o := Server.step srv env (Server.Inbound sid "event:message" msg) in
  Server.result o = Ok tt
  /\ Server.service o = srv
  /\ (nullish msg = true ->
      (exists e, Server.trace o
                 = [Console LogError "Error handling event:message" (ArgErr (TypeError e))])
      /\ Server.delivered o = []
      /\ Cluster.publications (Server.trace o) = [])
  /\ (nullish msg = false ->
      Server.messageObject env msg = Ok (JObj (empty_message env))
      /\ forall sid', is_Some (Server.sockets srv !! sid') <->
           {| Server.to := sid'; Server.event := "message";
              Server.payload := JObj (empty_message env) |} ∈ Server.delivered o).
Proof.
  intros Hsid Hdraft. cbn zeta.
  destruct msg as [| |b|n|s|items|fs]; try discriminate Hdraft.
  1,2: (unfold Server.step, Server.handle; rewrite Hsid; cbn;
        rewrite with_sockets_same; repeat split; eauto; discriminate).
  all: assert (E : Server.messageObject env ltac:(first [exact (JBool b) | exact (JNum n) | exact (JArr items)])
                   = Ok (JObj (empty_message env))) by reflexivity.
  all: rewrite (submit_step _ _ _ _ _ _ Hsid E); cbn [Server.result Server.service Server.delivered];
       repeat split; try discriminate; try exact E.
  all: intros Hin.
  all: try (apply list_elem_of_fmap; exists sid'; split; [reflexivity|];
            apply members_spec; destruct Hin as [rs Hrs]; exists rs; by split).
  all: apply list_elem_of_fmap in Hin as (sid'' & [= ->] & Hin);
       apply members_spec in Hin as (rs & Hrs & _); eauto.
Qed.

(** X4. When the promise of [pub.publish] rejects, the local fanout has
    already happened and stays: the sockets receive exactly what they
    receive from a service without relay, a warning with the message of
    the error is logged after the broadcast, nothing counts as published,
    and the handler returns. *)
Theorem X4_failed_publish_keeps_local_fanout srv env sid rooms msg e :
  Server.sockets srv !! sid = Some rooms ->
  is_draft msg = true ->
  Server.pub srv = true ->
  Server.publish_outcome env = Some e ->
  let o := Server.step srv env (Server.Inbound sid "event:message" msg) in
  let local := Server.step {| Server.pub := false; Server.sockets := Server.sockets srv |}
                 env (Server.Inbound sid "event:message" msg) in
  Server.result o = Ok tt
  /\ Server.delivered o = Server.delivered local
  /\ Server.trace o
     = Server.trace local
         ++ [Console LogWarn "[redis pub] publish failed" (ArgStr (error_message e))]
  /\ Cluster.publications (Server.trace o) = []
  /\ Server.service o = srv.
Proof.
  intros Hsid Hdraft Hpub Hfail. cbn zeta.
  destruct (draft_has_messageObject env msg Hdraft) as [fields E].
  rewrite (submit_step _ _ _ _ _ _ Hsid E).
  rewrite (submit_step {| Server.pub := false; Server.sockets := Server.sockets srv |}
             _ _ rooms _ _ Hsid E).
  cbn [Server.result Server.delivered Server.trace Server.service Server.sockets].
  unfold relay_part. cbn [Server.pub]. rewrite Hpub, Hfail, app_nil_r.
  repeat split. unfold fanout. destruct (truthy _); reflexivity.
Qed.

End OddPayloads.

Lemma X3_number_payload_is_broadcast_null_is_logged :
  (let o := Server.step (H := Json.codec) Sample.relayed Sample.env
              (Server.Inbound "A" "event:message" (JNum 42)) in
   Server.result o = Ok tt
   /\ Server.to <$> Server.delivered o = ["C"; "A"; "B"])
  /\ (let o := Server.step (H := Json.codec) Sample.relayed Sample.env
                 (Server.Inbound "A" "event:message" JNull) in
      Server.result o = Ok tt /\ Server.delivered o = []).
Proof.
  split.
  - destruct (X3_payloads_that_are_no_draft (H := Json.codec) Sample.relayed Sample.env
                "A" [JStr "A"; JStr "X"] (JNum 42) eq_refl eq_refl) as (Hres & _).
    cbn zeta. split; [exact Hres | reflexivity].
  - destruct (X3_payloads_that_are_no_draft (H := Json.codec) Sample.relayed Sample.env
                "A" [JStr "A"; JStr "X"] JNull eq_refl eq_refl) as (Hres & _ & Hnull & _).
    destruct (Hnull eq_refl) as (_ & Hnone & _).
    cbn zeta. split; [exact Hres | exact Hnone].
Defined.

Lemma X4_broker_down_members_still_served :
  let env := {| Server.socket_id := "A"; Server.Date_now := 1700000000000;
                Server.new_Date := 1700000000000;
                Server.publish_outcome := Some (Error "Connection is closed.") |} in
  let o := Server.step (H := Json.codec) Sample.relayed env
             (Server.Inbound "A" "event:message" Sample.to_room) in
  Server.result o = Ok tt
  /\ Server.to <$> Server.delivered o = ["A"; "B"]
  /\ Cluster.publications (Server.trace o) = [].
Proof.
  cbn zeta.
  destruct (X4_failed_publish_keeps_local_fanout (H := Json.codec) Sample.relayed
              {| Server.socket_id := "A"; Server.Date_now := 1700000000000;
                 Server.new_Date := 1700000000000;
                 Server.publish_outcome := Some (Error "Connection is closed.") |}
              "A" [JStr "A"; JStr "X"] Sample.to_room (Error "Connection is closed.")
              eq_refl eq_refl eq_refl eq_refl) as (Hres & Hdel & _ & Hpub & _).
  split; [exact Hres|]. split; [|exact Hpub].
  rewrite Hdel. reflexivity.
Defined.

(** ** Who receives a submitted message *)

Section Scope.
Context `{JsonCodec}.

Lemma members_NoDup (t : gmap string (list JsVal)) target :
  NoDup (Server.members t target).
Proof.
  unfold Server.members.
  eapply sublist_NoDup; [apply (NoDup_fst_map_to_list t)|].
  apply fmap_sublist, sublist_filter.
Qed.

Lemma conversationId_kept env msg fields :
  is_draft msg = true ->
  Server.messageObject env msg = Ok (JObj fields) ->
  assoc "conversationId" fields = draft_field msg "conversationId".
Proof.
  destruct msg as [| |b|n|s|items|fs]; try discriminate; intros _.
  - rewrite messageObject_of_string. by intros [= <-].
  - rewrite messageObject_of_object. by intros [= <-].
Qed.

(** The sockets a broadcast effect of the handler is delivered to. *)
Lemma fanout_deliveries (t : gmap string (list JsVal)) obj fields :
  Server.deliveries t (fanout obj fields)
  = (fun sid => {| Server.to := sid; Server.event := "message"; Server.payload := obj |})
      <$> Server.members t
            (if truthy (assoc "conversationId" fields)
             then Server.room_keys (assoc "conversationId" fields) else []).
Proof. unfold fanout. destruct (truthy _); reflexivity. Qed.

Lemma to_of_deliveries (l : list string) ev p :
  Server.to <$> ((fun sid => {| Server.to := sid; Server.event := ev; Server.payload := p |})
                   <$> l) = l.
Proof. induction l as [|x l IH]; [reflexivity|]. cbn. by rewrite IH. Qed.

(** X5. A draft without a conversation id (none, or a falsy one such as
    the empty string) is delivered to every socket connected to the
    process, the sender's included, once each, and to nothing else; every
    delivery is the event [message] with the one message object. *)
Theorem X5_global_message_reaches_every_socket_once srv env sid rooms msg :
  Server.sockets srv !! sid = Some rooms ->
  is_draft msg = true ->
  truthy (draft_field msg "conversationId") = false ->
  let o := Server.step srv env (Server.Inbound sid "event:message" msg) in
  exists fields,
    Server.messageObject env msg = Ok (JObj fields)
    /\ NoDup (Server.to <$> Server.delivered o)
    /\ (forall sid', sid' ∈ (Server.to <$> Server.delivered o)
                     <-> is_Some (Server.sockets srv !! sid'))
    /\ sid ∈ (Server.to <$> Server.delivered o)
    /\ (forall d, d ∈ Server.delivered o ->
          Server.event d = "message" /\ Server.payload d = JObj fields).
Proof.
  intros Hsid Hdraft Hconv. cbn zeta.
  destruct (draft_has_messageObject env msg Hdraft) as [fields E].
  exists fields. split; [exact E|].
  rewrite (submit_step _ _ _ _ _ _ Hsid E). cbn [Server.delivered].
  rewrite fanout_deliveries, (conversationId_kept _ _ _ Hdraft E), Hconv, to_of_deliveries.
  assert (Hall : forall sid', sid' ∈ Server.members (Server.sockets srv) []
                              <-> is_Some (Server.sockets srv !! sid')).
  { intros sid'. rewrite members_spec. split.
    - intros (rs & Hrs & _). eauto.
    - intros [rs Hrs]. exists rs. by split. }
  split; [apply members_NoDup|]. split; [exact Hall|].
  split; [apply Hall; eauto|].
  intros d Hd. apply list_elem_of_fmap in Hd as (sid' & -> & _). by split.
Qed.

(** X6. A draft whose conversation id is a non-empty string is delivered
    by the handler exactly to the sockets that are in the room of that
    name, once each: a socket outside the room gets nothing from this
    step, and the sender gets the message only if it has joined the room
    itself. *)
Theorem X6_room_message_reaches_the_room_only srv env sid rooms msg room :
  Server.sockets srv !! sid = Some rooms ->
  is_draft msg = true ->
  draft_field msg "conversationId" = JStr room ->
  room <> "" ->
  let o := Server.step srv env (Server.Inbound sid "event:message" msg) in
  NoDup (Server.to <$> Server.delivered o)
  /\ (forall sid', sid' ∈ (Server.to <$> Server.delivered o)
                   <-> exists rooms', Server.sockets srv !! sid' = Some rooms'
                                      /\ Server.in_room rooms' (JStr room) = true)
  /\ (sid ∈ (Server.to <$> Server.delivered o) <-> Server.in_room rooms (JStr room) = true).
Proof.
  intros Hsid Hdraft Hconv Hroom. cbn zeta.
  destruct (draft_has_messageObject env msg Hdraft) as [fields E].
  rewrite (submit_step _ _ _ _ _ _ Hsid E). cbn [Server.delivered].
  rewrite fanout_deliveries, (conversationId_kept _ _ _ Hdraft E), Hconv, to_of_deliveries.
  assert (Htruthy : truthy (JStr room) = true).
  { cbn. by destruct (String.eqb_spec room ""). }
  rewrite Htruthy. cbn [Server.room_keys].
  assert (Hscope : forall sid', sid' ∈ Server.members (Server.sockets srv) [JStr room]
            <-> exists rooms', Server.sockets srv !! sid' = Some rooms'
                               /\ Server.in_room rooms' (JStr room) = true).
  { intros sid'. rewrite members_spec.
    split; intros (rs & Hrs & Hin); exists rs; (split; [exact Hrs|]).
    - cbn in Hin. by rewrite orb_false_r in Hin.
    - cbn. by rewrite orb_false_r. }
  split; [apply members_NoDup|]. split; [exact Hscope|].
  rewrite Hscope. split.
  - intros (rs & Hrs & Hin). rewrite Hsid in Hrs. by injection Hrs as <-.
  - intros Hin. eauto.
Qed.

End Scope.

Lemma X5_message_without_room_on_the_sample :
  let o := Server.step (H := Json.codec) Sample.local_only Sample.env
             (Server.Inbound "A" "event:message" Sample.draft) in
  exists fields,
    Server.messageObject Sample.env Sample.draft = Ok (JObj fields)
    /\ NoDup (Server.to <$> Server.delivered o)
    /\ (forall sid', sid' ∈ (Server.to <$> Server.delivered o)
                     <-> is_Some (Sample.table !! sid'))
    /\ "A" ∈ (Server.to <$> Server.delivered o)
    /\ (forall d, d ∈ Server.delivered o ->
          Server.event d = "message" /\ Server.payload d = JObj fields).
Proof.
  apply (X5_global_message_reaches_every_socket_once (H := Json.codec)
           Sample.local_only Sample.env "A" [JStr "A"; JStr "X"] Sample.draft);
    reflexivity.
Defined.

Lemma X6_socket_C_is_left_out_of_room_X :
  let o := Server.step (H := Json.codec) Sample.local_only Sample.env
             (Server.Inbound "A" "event:message" Sample.to_room) in
  ("C" ∉ (Server.to <$> Server.delivered o)) /\ ("A" ∈ (Server.to <$> Server.delivered o)).
Proof.
  destruct (X6_room_message_reaches_the_room_only (H := Json.codec)
              Sample.local_only Sample.env "A" [JStr "A"; JStr "X"] Sample.to_room "X"
              eq_refl eq_refl eq_refl) as (_ & Hscope & Hsender); [discriminate|].
  cbn zeta. split.
  - intros Hin. apply Hscope in Hin as (rs & Hrs & Hin).
    vm_compute in Hrs. injection Hrs as <-. discriminate Hin.
  - apply Hsender. reflexivity.
Defined.

(** ** Joining and leaving rooms *)

Lemma same_key_eq a b : same_key a b = true -> a = b.
Proof.
  destruct a, b; cbn; try discriminate; try reflexivity.
  - intros E. f_equal. by apply Bool.eqb_prop.
  - intros E%Z.eqb_eq. by subst.
  - intros E%String.eqb_eq. by subst.
Qed.

Lemma same_key_string (a b : string) :
  same_key (JStr a) (JStr b) = true <-> a = b.
Proof. cbn. apply String.eqb_eq. Qed.

Lemma in_room_app rooms more key :
  Server.in_room (rooms ++ more) key = Server.in_room rooms key || Server.in_room more key.
Proof. unfold Server.in_room. apply existsb_app. Qed.

Lemma in_room_add rooms (room other : string) :
  Server.in_room (Server.add_room rooms (JStr room)) (JStr other)
  = Server.in_room rooms (JStr other) || String.eqb other room.
Proof.
  unfold Server.add_room.
  destruct (Server.in_room rooms (JStr room)) eqn:E.
  - destruct (String.eqb_spec other room) as [->|_].
    + by rewrite E.
    + by rewrite orb_false_r.
  - rewrite in_room_app. cbn. by rewrite orb_false_r.
Qed.

Lemma in_room_del rooms (room other : string) :
  Server.in_room (Server.del_room rooms (JStr room)) (JStr other)
  = Server.in_room rooms (JStr other) && negb (String.eqb other room).
Proof.
  unfold Server.del_room, Server.in_room.
  induction rooms as [|k rooms IH]; [reflexivity|].
  rewrite filter_cons. destruct (decide (same_key (JStr room) k = false)) as [Hk|Hk].
  - cbn [existsb]. rewrite IH.
    destruct (same_key (JStr other) k) eqn:Hother; cbn; [|reflexivity].
    apply same_key_eq in Hother as <-. cbn in Hk.
    rewrite String.eqb_sym, Hk. cbn. by rewrite orb_true_r || reflexivity.
  - apply not_false_is_true in Hk. apply same_key_eq in Hk as <-.
    rewrite IH. cbn [existsb same_key].
    destruct (String.eqb other room) eqn:E; cbn; [by rewrite andb_false_r | reflexivity].
Qed.

Section Rooms.
Context `{JsonCodec}.

Lemma join_step srv env sid rooms p roomId :
  Server.sockets srv !! sid = Some rooms ->
  truthy p = true -> get p "roomId" = Ok roomId -> truthy roomId = true ->
  Server.sockets (Server.service (Server.step srv env (Server.Inbound sid "join_room" p)))
  = alter (fun rs => foldl Server.add_room rs (Server.room_keys roomId)) sid (Server.sockets srv).
Proof.
  intros Hsid Hp Hget Hroom. unfold Server.step, Server.handle. rewrite Hsid.
  change (Server.listener srv env sid "join_room" p) with (Server.on_join_room sid p).
  unfold Server.on_join_room. rewrite Hp, Hget. cbn. rewrite Hroom. reflexivity.
Qed.

Lemma leave_step srv env sid rooms p roomId :
  Server.sockets srv !! sid = Some rooms ->
  truthy p = true -> get p "roomId" = Ok roomId -> truthy roomId = true ->
  Server.step srv env (Server.Inbound sid "leave_room" p)
  = {| Server.service :=
         Server.with_sockets srv
           (alter (fun rs => Server.del_room rs roomId) sid (Server.sockets srv));
       Server.trace := [SocketLeave sid roomId];
       Server.delivered := [];
       Server.result := Ok tt |}.
Proof.
  intros Hsid Hp Hget Hroom. unfold Server.step, Server.handle. rewrite Hsid.
  change (Server.listener srv env sid "leave_room" p) with (Server.on_leave_room sid p).
  unfold Server.on_leave_room. rewrite Hp, Hget. cbn. rewrite Hroom. reflexivity.
Qed.

(** X7. Joining a room whose id is a non-empty string puts the socket in
    that room and changes its membership of no other room; joining again
    changes nothing; leaving the room afterwards takes the socket out of
    that room and of no other.  Neither event touches the rooms of
    another socket, and leaving sends nothing, not even an
    acknowledgement. *)
Theorem X7_join_then_leave srv env env' sid rooms room :
  Server.sockets srv !! sid = Some rooms ->
  room <> "" ->
  let p := JObj [("roomId", JStr room)] in
  let joined := Server.service (Server.step srv env (Server.Inbound sid "join_room" p)) in
  let left := Server.step joined env' (Server.Inbound sid "leave_room" p) in
  (exists rs, Server.sockets joined !! sid = Some rs
              /\ forall other, Server.in_room rs (JStr other)
                               = Server.in_room rooms (JStr other) || String.eqb other room)
  /\ Server.service (Server.step joined env' (Server.Inbound sid "join_room" p)) = joined
  /\ (exists rs, Server.sockets (Server.service left) !! sid = Some rs
                 /\ forall other, Server.in_room rs (JStr other)
                                  = Server.in_room rooms (JStr other)
                                    && negb (String.eqb other room))
  /\ Server.delivered left = []
  /\ (forall sid', sid' <> sid ->
        Server.sockets joined !! sid' = Server.sockets srv !! sid'
        /\ Server.sockets (Server.service left) !! sid' = Server.sockets srv !! sid').
Proof.
  intros Hsid Hroom. cbn zeta.
  assert (Htruthy : truthy (JStr room) = true).
  { cbn. by destruct (String.eqb_spec room ""). }
  set (p := JObj [("roomId", JStr room)]).
  assert (Hjoin : Server.sockets
                    (Server.service (Server.step srv env (Server.Inbound sid "join_room" p)))
                  = alter (fun rs => Server.add_room rs (JStr room)) sid (Server.sockets srv)).
  { by rewrite (join_step srv env sid rooms p (JStr room) Hsid eq_refl eq_refl Htruthy). }
  set (joined := Server.service (Server.step srv env (Server.Inbound sid "join_room" p))) in *.
  assert (Hjsid : Server.sockets joined !! sid = Some (Server.add_room rooms (JStr room))).
  { by rewrite Hjoin, lookup_alter_eq, Hsid. }
  split; [|split; [|split; [|split]]].
  - eexists. split; [exact Hjsid|]. intros other. apply in_room_add.
  - assert (Hagain : Server.sockets
                       (Server.service (Server.step joined env' (Server.Inbound sid "join_room" p)))
                     = Server.sockets joined).
    { rewrite (join_step joined env' sid _ p (JStr room) Hjsid eq_refl eq_refl Htruthy).
      apply alter_id. intros rs Hrs. rewrite Hjsid in Hrs. injection Hrs as <-.
      cbn. unfold Server.add_room at 1.
      by rewrite in_room_add, String.eqb_refl, orb_true_r. }
    destruct (Server.step joined env' (Server.Inbound sid "join_room" p)) as [srv2 ? ? ?] eqn:E.
    cbn in *. pose proof (step_keeps_pub joined env' (Server.Inbound sid "join_room" p)) as Hpub.
    rewrite E in Hpub. cbn in Hpub. destruct srv2, joined. cbn in *. by subst.
  - rewrite (leave_step joined env' sid _ p (JStr room) Hjsid eq_refl eq_refl Htruthy).
    cbn [Server.service Server.with_sockets Server.sockets].
    eexists. split; [by rewrite lookup_alter_eq, Hjsid|].
    intros other. rewrite in_room_del, in_room_add.
    by destruct (Server.in_room rooms (JStr other)), (String.eqb other room).
  - by rewrite (leave_step joined env' sid _ p (JStr room) Hjsid eq_refl eq_refl Htruthy).
  - intros sid' Hne.
    rewrite (leave_step joined env' sid _ p (JStr room) Hjsid eq_refl eq_refl Htruthy).
    cbn [Server.service Server.with_sockets Server.sockets].
    rewrite lookup_alter_ne by congruence.
    rewrite Hjoin, lookup_alter_ne by congruence. by split.
Qed.

End Rooms.

Lemma X7_socket_C_in_and_out_of_room_X :
  let p := JObj [("roomId", JStr "X")] in
  let joined := Server.service (Server.step (H := Json.codec) Sample.relayed Sample.env
                                  (Server.Inbound "C" "join_room" p)) in
  let left := Server.step (H := Json.codec) joined Sample.env
                (Server.Inbound "C" "leave_room" p) in
  Server.sockets joined !! "C" = Some [JStr "C"; JStr "X"]
  /\ Server.sockets (Server.service left) !! "C" = Some [JStr "C"]
  /\ Server.delivered left = [].
Proof.
  destruct (X7_join_then_leave (H := Json.codec) Sample.relayed Sample.env Sample.env
              "C" [JStr "C"] "X" eq_refl) as (_ & _ & _ & Hnone & _); [discriminate|].
  cbn zeta. split; [reflexivity|]. split; [reflexivity | exact Hnone].
Defined.

(** ** Guards and isolation *)

Section Guards.
Context `{JsonCodec}.

Lemma leave_room_run sid p :
  Server.on_leave_room sid p = ([], Ok tt)
  \/ exists roomId,
       truthy p = true /\ get p "roomId" = Ok roomId /\ truthy roomId = true
       /\ Server.on_leave_room sid p = ([SocketLeave sid roomId], Ok tt).
Proof.
  unfold Server.on_leave_room.
  destruct (truthy p) eqn:Hp.
  - destruct p; try discriminate Hp; cbn;
      try (left; reflexivity);
      match goal with
      | |- context [truthy ?v] =>
          destruct (truthy v) eqn:Hv; [right; exists v; repeat split; assumption | left; reflexivity]
      end.
  - cbn. rewrite Hp. left; reflexivity.
Qed.

Lemma quiet_step srv env ev :
  effects (Server.handle srv env ev) = [] ->
  outcome (Server.handle srv env ev) = Ok tt ->
  Server.transport (Server.sockets srv) ev = Server.sockets srv ->
  Server.step srv env ev
  = {| Server.service := srv; Server.trace := [];
       Server.delivered := []; Server.result := Ok tt |}.
Proof.
  intros Heff Hout Htr. unfold Server.step. rewrite Heff, Hout, Htr. cbn.
  by rewrite with_sockets_same.
Qed.

(** X8. A [join_room] or [leave_room] event without a usable room id (no
    payload, [null], a payload that is not an object, an object without
    [roomId], or one whose [roomId] is empty or otherwise falsy) is
    ignored without a trace: no exception, no acknowledgement, no log
    line, and the room table stays as it is. *)
Theorem X8_room_event_without_room_id_is_ignored srv env sid name p v :
  name = "join_room" \/ name = "leave_room" ->
  truthy p = false \/ (get p "roomId" = Ok v /\ truthy v = false) ->
  Server.step srv env (Server.Inbound sid name p)
  = {| Server.service := srv; Server.trace := [];
       Server.delivered := []; Server.result := Ok tt |}.
Proof.
  intros Hname Hbad.
  assert (Hquiet : Server.handle srv env (Server.Inbound sid name p) = ([], Ok tt)).
  { cbn [Server.handle]. destruct (Server.sockets srv !! sid); [|reflexivity].
    unfold Server.listener.
    destruct Hname as [-> | ->]; cbn [String.eqb Ascii.eqb Bool.eqb];
      unfold Server.on_join_room, Server.on_leave_room;
      (destruct Hbad as [Hp | [Hget Hv]];
       [ rewrite Hp; cbn; by rewrite Hp
       | destruct (truthy p) eqn:Hp;
         [ rewrite Hget; cbn; by rewrite Hv
         | cbn; by rewrite Hp ] ]). }
  apply quiet_step; [by rewrite Hquiet | by rewrite Hquiet | reflexivity].
Qed.

Lemma observe_fanout_only (t : gmap string (list JsVal)) a obj fields tail srv env :
  tail = relay_part srv env obj ->
  (Server.observe t ([Console LogInfo a (ArgVal obj); fanout obj fields] ++ tail)).1 = t.
Proof.
  intros ->. cbn [app Server.observe Server.apply_effect].
  rewrite fanout_keeps_table, observe_relay_part. reflexivity.
Qed.

Lemma inbound_keeps_other_sockets srv env sid name p sid' :
  sid' <> sid ->
  Server.sockets (Server.service (Server.step srv env (Server.Inbound sid name p))) !! sid'
  = Server.sockets srv !! sid'.
Proof.
  intros Hne. unfold Server.step, Server.handle. cbn [Server.transport].
  destruct (Server.sockets srv !! sid) as [rooms|] eqn:Hsid; [|reflexivity].
  unfold Server.listener.
  destruct (String.eqb name "join_room").
  { destruct (join_room_run sid p) as [->|(roomId & _ & _ & _ & ->)]; cbn; [reflexivity|].
    by rewrite lookup_alter_ne by congruence. }
  destruct (String.eqb name "leave_room").
  { destruct (leave_room_run sid p) as [->|(roomId & _ & _ & _ & ->)]; cbn; [reflexivity|].
    by rewrite lookup_alter_ne by congruence. }
  destruct (String.eqb name "event:message");
    [|destruct (String.eqb name "error"); reflexivity].
  destruct (Server.messageObject env p) as [obj|e] eqn:E.
  - destruct (messageObject_is_object _ _ _ E) as [fields ->].
    rewrite (event_message_run _ _ _ _ E). cbn [effects fst].
    destruct (Server.observe _ _) as [t ds] eqn:Eobs.
    pose proof (observe_fanout_only (Server.sockets srv) "Received event:message:"
                  (JObj fields) fields _ srv env eq_refl) as Ht.
    rewrite Eobs in Ht. cbn in Ht. by subst t.
  - rewrite (event_message_throw _ _ _ _ E). reflexivity.
Qed.

Lemma handle_returns srv env ev : outcome (Server.handle srv env ev) = Ok tt.
Proof.
  destruct ev as [sid|sid name p|sid reason|sid err|channel message|on_pub err];
    cbn [Server.handle]; try reflexivity.
  - destruct (Server.sockets srv !! sid); [|reflexivity].
    unfold Server.listener.
    destruct (String.eqb name "join_room").
    { by destruct (join_room_run sid p) as [->|(roomId & _ & _ & _ & ->)]. }
    destruct (String.eqb name "leave_room").
    { by destruct (leave_room_run sid p) as [->|(roomId & _ & _ & _ & ->)]. }
    destruct (String.eqb name "event:message");
      [|destruct (String.eqb name "error"); reflexivity].
    apply event_message_never_throws.
  - by destruct (Server.sockets srv !! sid).
  - by destruct (Server.sockets srv !! sid).
  - destruct (Server.pub srv); [|reflexivity].
    by destruct (sub_message_run channel message) as [->|[(parsed & _ & ->)|(_ & ->)]].
  - by destruct (Server.pub srv).
Qed.

(** X9. No event makes a handler throw, whatever its name and payload:
    every step returns normally and leaves the relay configuration as it
    was.  And an event sent by one socket never changes the rooms of
    another socket. *)
Theorem X9_handlers_return_and_touch_only_their_socket srv env ev sid name p sid' :
  sid' <> sid ->
  Server.result (Server.step srv env ev) = Ok tt
  /\ Server.pub (Server.service (Server.step srv env ev)) = Server.pub srv
  /\ Server.sockets (Server.service (Server.step srv env (Server.Inbound sid name p))) !! sid'
     = Server.sockets srv !! sid'.
Proof.
  intros Hne. split; [|split].
  - unfold Server.step. destruct (Server.observe _ _). apply handle_returns.
  - apply step_keeps_pub.
  - by apply inbound_keeps_other_sockets.
Qed.

End Guards.

Lemma X8_join_with_empty_room_id :
  Server.step (H := Json.codec) Sample.relayed Sample.env
    (Server.Inbound "C" "join_room" (JObj [("roomId", JStr "")]))
  = {| Server.service := Sample.relayed; Server.trace := [];
       Server.delivered := []; Server.result := Ok tt |}.
Proof.
  apply (X8_room_event_without_room_id_is_ignored (H := Json.codec)
           Sample.relayed Sample.env "C" "join_room" (JObj [("roomId", JStr "")]) (JStr "")).
  - by left.
  - right. by split.
Defined.

Lemma X9_join_of_C_leaves_A_alone :
  Server.result (Server.step (H := Json.codec) Sample.relayed Sample.env
                   (Server.Inbound "C" "event:message" JNull)) = Ok tt
  /\ Server.pub (Server.service (Server.step (H := Json.codec) Sample.relayed Sample.env
                                   (Server.Inbound "C" "event:message" JNull))) = true
  /\ Server.sockets
       (Server.service (Server.step (H := Json.codec) Sample.relayed Sample.env
                          (Server.Inbound "C" "join_room" (JObj [("roomId", JStr "Y")]))))
       !! "A" = Some [JStr "A"; JStr "X"].
Proof.
  apply (X9_handlers_return_and_touch_only_their_socket (H := Json.codec)
           Sample.relayed Sample.env (Server.Inbound "C" "event:message" JNull)
           "C" "join_room" (JObj [("roomId", JStr "Y")]) "A").
  discriminate.
Defined.

(** ** What the subscription hands on *)

Section Subscription.
Context `{JsonCodec}.

(** X10. A payload of the [Messages] channel that parses is delivered,
    as the event [message], to every socket connected to the process, once
    each, without regard to rooms or to a conversation id in the payload;
    what arrives on another channel is ignored. *)
Theorem X10_relayed_payload_reaches_every_socket srv env message parsed channel :
  Server.pub srv = true ->
  JSON_parse message = Some parsed ->
  channel <> "Messages" ->
  let o := Server.step srv env (Server.RedisMessage "Messages" message) in
  NoDup (Server.to <$> Server.delivered o)
  /\ (forall sid, sid ∈ (Server.to <$> Server.delivered o)
                  <-> is_Some (Server.sockets srv !! sid))
  /\ (forall d, d ∈ Server.delivered o ->
        Server.event d = "message" /\ Server.payload d = parsed)
  /\ Server.step srv env (Server.RedisMessage channel message)
     = {| Server.service := srv; Server.trace := [];
          Server.delivered := []; Server.result := Ok tt |}.
Proof.
  intros Hpub Hparse Hchannel. cbn zeta.
  destruct (relay_step_parsed srv env message parsed Hpub Hparse) as [_ ->].
  rewrite to_of_deliveries.
  split; [apply members_NoDup|]. split; [|split].
  - intros sid. rewrite members_spec. split.
    + intros (rs & Hrs & _). eauto.
    + intros [rs Hrs]. exists rs. by split.
  - intros d Hd. apply list_elem_of_fmap in Hd as (sid & -> & _). by split.
  - apply quiet_step; [| |reflexivity]; cbn [Server.handle]; rewrite Hpub;
      unfold Server.on_sub_message;
      destruct (String.eqb_spec channel "Messages"); first [congruence | reflexivity].
Qed.

End Subscription.

Lemma X10_relayed_room_message_reaches_C :
  let o := Server.step (H := Json.codec) Sample.relayed Sample.env
             (Server.RedisMessage "Messages"
                (JSON_stringify (JsonCodec := Json.codec) Sample.to_room)) in
  "C" ∈ (Server.to <$> Server.delivered o)
  /\ (forall d, d ∈ Server.delivered o ->
        Server.event d = "message" /\ Server.payload d = Sample.to_room).
Proof.
  destruct (X10_relayed_payload_reaches_every_socket (H := Json.codec) Sample.relayed
              Sample.env (JSON_stringify (JsonCodec := Json.codec) Sample.to_room)
              Sample.to_room "Other" eq_refl eq_refl)
    as (_ & Hall & Hpayload & _); [discriminate|].
  cbn zeta. split; [|exact Hpayload].
  apply Hall. eexists. reflexivity.
Defined.

(* ===================================================================== *)
(** * More of the client                                                  *)
(* ===================================================================== *)

(** ** Reconciliation over time *)

Lemma reconcile_ids (prev : list Client.Message) msg :
  ((exists m, m ∈ prev /\ Client.id m = Client.id msg)
   /\ Client.id <$> Client.reconcile prev msg = Client.id <$> prev)
  \/ ((forall m, m ∈ prev -> Client.id m <> Client.id msg)
      /\ Client.id <$> Client.reconcile prev msg = (Client.id <$> prev) ++ [Client.id msg]).
Proof.
  destruct (some_id_or_none prev msg) as [Hhit|Hmiss].
  - left. split; [exact Hhit|]. rewrite (reconcile_hit _ _ Hhit).
    rewrite <- list_fmap_compose. apply list_fmap_ext.
    intros i m _. cbn.
    destruct (String.eqb_spec (Client.id m) (Client.id msg)); congruence.
  - right. split; [exact Hmiss|]. rewrite (reconcile_miss _ _ Hmiss).
    by rewrite fmap_app.
Qed.

Lemma reconcile_contains (prev : list Client.Message) msg :
  msg ∈ Client.reconcile prev msg.
Proof.
  destruct (some_id_or_none prev msg) as [Hhit|Hmiss].
  - rewrite (reconcile_hit _ _ Hhit). destruct Hhit as (m & Hin & Hid).
    apply list_elem_of_fmap. exists m. split; [|exact Hin].
    apply String.eqb_eq in Hid. by rewrite Hid.
  - rewrite (reconcile_miss _ _ Hmiss). apply elem_of_app. right. apply list_elem_of_here.
Qed.

(** X11. Receiving the same message a second time changes nothing: the
    list after the second reception is the list after the first.  (With
    the relay on, a process hands a message to its sockets twice, by the
    local fanout and by its own subscription.) *)
Theorem X11_duplicate_reception_is_harmless (prev : list Client.Message) msg :
  Client.reconcile (Client.reconcile prev msg) msg = Client.reconcile prev msg.
Proof.
  assert (Hhit : exists m, m ∈ Client.reconcile prev msg /\ Client.id m = Client.id msg).
  { exists msg. split; [apply reconcile_contains | reflexivity]. }
  rewrite (reconcile_hit _ _ Hhit).
  destruct (some_id_or_none prev msg) as [Hprev|Hmiss].
  - rewrite (reconcile_hit _ _ Hprev), <- list_fmap_compose.
    apply list_fmap_ext. intros i m _. cbn.
    destruct (String.eqb_spec (Client.id m) (Client.id msg)) as [E|N].
    + by rewrite String.eqb_refl.
    + by destruct (String.eqb_spec (Client.id m) (Client.id msg)).
  - rewrite (reconcile_miss _ _ Hmiss), fmap_app. cbn. rewrite String.eqb_refl.
    f_equal. rewrite <- (list_fmap_id prev) at 2.
    apply list_fmap_ext. intros i m Hi. cbn.
    destruct (String.eqb_spec (Client.id m) (Client.id msg)) as [E|N]; [|reflexivity].
    destruct (Hmiss m); [|exact E]. by eapply list_elem_of_lookup_2.
Qed.

(** X12. Reconciliation never removes or reorders an id: the ids of the
    list stay as they are, with the incoming id added at the end when it
    was not there, and the incoming message is in the list afterwards.  So
    a list built from the empty list by receiving messages never holds two
    entries with the same id, whatever arrives and however often. *)
Theorem X12_received_messages_have_distinct_ids (incoming : list Client.Message) prev msg :
  (Client.id <$> Client.reconcile prev msg = Client.id <$> prev
   \/ Client.id <$> Client.reconcile prev msg = (Client.id <$> prev) ++ [Client.id msg])
  /\ msg ∈ Client.reconcile prev msg
  /\ (length prev <= length (Client.reconcile prev msg) <= S (length prev))%nat
  /\ NoDup (Client.id <$> foldl Client.reconcile [] incoming).
Proof.
  split; [|split; [|split]].
  - destruct (reconcile_ids prev msg) as [[_ E]|[_ E]]; [by left | by right].
  - apply reconcile_contains.
  - destruct (reconcile_ids prev msg) as [[_ E]|[_ E]]; apply (f_equal length) in E;
      rewrite ?length_app, !length_fmap in E; cbn in E; lia.
  - assert (Hinv : forall l start, NoDup (Client.id <$> start) ->
                     NoDup (Client.id <$> foldl Client.reconcile start l)).
    { induction l as [|m l IH]; intros start Hstart; [exact Hstart|].
      cbn [foldl]. apply IH.
      destruct (reconcile_ids start m) as [[_ ->]|[Hmiss ->]]; [exact Hstart|].
      apply NoDup_app. split; [exact Hstart|]. split; [|apply NoDup_singleton].
      intros i Hi Hi'. apply list_elem_of_singleton in Hi'. subst i.
      apply list_elem_of_fmap in Hi as (m' & Hid & Hin). by destruct (Hmiss m' Hin). }
    apply Hinv. constructor.
Qed.

(** ** The typing list and the presence set *)

Lemma include_NoDup names name : NoDup names -> NoDup (Client.include names name).
Proof.
  intros Hnd. unfold Client.include.
  destruct (existsb (String.eqb name) names) eqn:E; [exact Hnd|].
  apply NoDup_app. split; [exact Hnd|]. split; [|apply NoDup_singleton].
  intros n Hn Hn'. apply list_elem_of_singleton in Hn'. subst n.
  assert (existsb (String.eqb name) names = true); [|congruence].
  apply existsb_exists. exists name. split; [by apply list_elem_of_In | apply String.eqb_refl].
Qed.

Lemma exclude_NoDup names name : NoDup names -> NoDup (Client.exclude names name).
Proof. intros Hnd. unfold Client.exclude. by apply NoDup_filter. Qed.

Lemma client_step_typing_NoDup st env ev :
  NoDup (Client.typingUsers st) -> NoDup (Client.typingUsers (Client.step st env ev).1).
Proof.
  intros Hnd. unfold Client.step.
  destruct ev; cbn; try exact Hnd; destruct (Client.socket st); cbn; try exact Hnd.
  - by do 2 apply include_NoDup.
  - by do 2 apply exclude_NoDup.
Qed.

Lemma client_run_typing_NoDup steps : forall st,
  NoDup (Client.typingUsers st) -> NoDup (Client.typingUsers (Client.run st steps)).
Proof.
  induction steps as [|[e ev] rest IH]; intros st Hnd; [exact Hnd|].
  cbn. apply IH. by apply client_step_typing_NoDup.
Qed.

(** X13. The list of typing users never names anybody twice: if it has
    no repetition, it has none after any sequence of events, also when
    [user:typing] arrives repeatedly for the same name (both registered
    listeners run on each).  And one [user:stop-typing] removes the name
    entirely. *)
Theorem X13_typing_list_has_no_repetition st steps env uid name :
  NoDup (Client.typingUsers st) ->
  Client.socket st <> None ->
  NoDup (Client.typingUsers (Client.run st steps))
  /\ (let twice := Client.run st [(env, Client.UserTyping uid name);
                                  (env, Client.UserTyping uid name)] in
      length (filter (fun n => n = name) (Client.typingUsers twice)) = 1%nat
      /\ name ∉ Client.typingUsers (Client.step twice env (Client.UserStopTyping uid name)).1).
Proof.
  intros Hnd Hsock. split.
  - by apply client_run_typing_NoDup.
  - destruct st as [sock msgs conn typing online me myname]. cbn in Hnd, Hsock.
    destruct sock as [sock|]; [|done]. cbn.
    set (names := Client.include (Client.include
                    (Client.include (Client.include typing name) name) name) name).
    assert (Hin : name ∈ names) by apply include_adds.
    assert (Hnd2 : NoDup names) by (do 4 apply include_NoDup; exact Hnd).
    split.
    + clearbody names. clear -Hin Hnd2.
      induction Hnd2 as [|n l Hn Hl IH]; [by apply not_elem_of_nil in Hin|].
      rewrite filter_cons. destruct (decide (n = name)) as [->|Hne].
      * cbn. f_equal. clear IH Hin.
        induction l as [|x l IHl]; [reflexivity|].
        rewrite filter_cons. destruct (decide (x = name)) as [->|_].
        -- destruct Hn. apply list_elem_of_here.
        -- apply IHl. { intros Hx. apply Hn. by apply list_elem_of_further. }
           by inversion Hl.
      * apply IH. apply elem_of_cons in Hin as [->|Hin]; [done | exact Hin].
    + intros Hbad. apply list_elem_of_filter in Hbad as [_ Hbad].
      by apply exclude_removes in Hbad.
Qed.

Lemma X13_alice_typing_twice_is_listed_once :
  NoDup (Client.typingUsers (Client.run Sample.provider Typing.seen))
  /\ (let twice := Client.run Sample.provider
                     [(Sample.client_env, Client.UserTyping "u_1" "alice");
                      (Sample.client_env, Client.UserTyping "u_1" "alice")] in
      length (filter (fun n => n = "alice") (Client.typingUsers twice)) = 1%nat
      /\ "alice" ∉ Client.typingUsers
                     (Client.step twice Sample.client_env
                        (Client.UserStopTyping "u_1" "alice")).1).
Proof.
  apply (X13_typing_list_has_no_repetition Sample.provider Typing.seen Sample.client_env
           "u_1" "alice").
  - constructor.
  - discriminate.
Defined.

(** X14. A [user:joined] event puts the user in the set of online users
    and a following [user:left] takes it out again, both without touching
    any other user of the set.  Each of the two events runs two listeners,
    so each appends two system lines to the message list, not one; the two
    lines carry the same id whenever the clock reads the same millisecond
    for both. *)
Theorem X14_presence_events st env userId :
  Client.socket st <> None ->
  let joined := (Client.step st env (Client.UserJoined userId)).1 in
  let left := (Client.step joined env (Client.UserLeft userId)).1 in
  userId ∈ Client.onlineUsers joined
  /\ (userId ∉ Client.onlineUsers left)
  /\ (forall other, other <> userId ->
        (other ∈ Client.onlineUsers joined <-> other ∈ Client.onlineUsers st)
        /\ (other ∈ Client.onlineUsers left <-> other ∈ Client.onlineUsers st))
  /\ Client.messages joined
     = Client.messages st
         ++ [Client.system_message (Client.clock env) "A new user joined the chat";
             Client.system_message (Client.clock' env) (userId +:+ " joined the chat")]
  /\ Client.messages left
     = Client.messages joined
         ++ [Client.system_message (Client.clock env) "Someone left the chat";
             Client.system_message (Client.clock' env) (userId +:+ " left the chat")]
  /\ (Client.Date_now (Client.clock env) = Client.Date_now (Client.clock' env) ->
      ~ NoDup (Client.id <$> Client.messages joined)).
Proof.
  intros Hsock. destruct st as [sock msgs conn typing online me myname].
  cbn in Hsock. destruct sock as [sock|]; [|done]. cbn.
  split; [apply elem_of_union; right; by apply elem_of_singleton|].
  split; [rewrite elem_of_difference, elem_of_singleton; tauto|].
  split.
  { intros other Hne.
    rewrite elem_of_difference, elem_of_union, elem_of_singleton. tauto. }
  split; [by rewrite <- app_assoc|]. split; [by rewrite <- !app_assoc|].
  intros Hclock Hnd. rewrite <- app_assoc, fmap_app in Hnd.
  apply NoDup_app in Hnd as (_ & _ & Hnd). cbn in Hnd. rewrite Hclock in Hnd.
  apply NoDup_cons in Hnd as [Hnotin _]. apply Hnotin, list_elem_of_here.
Qed.

Lemma X14_u2_joins_and_leaves :
  let joined := (Client.step Sample.provider Sample.client_env (Client.UserJoined "u_2")).1 in
  let left := (Client.step joined Sample.client_env (Client.UserLeft "u_2")).1 in
  "u_2" ∈ Client.onlineUsers joined
  /\ ("u_2" ∉ Client.onlineUsers left)
  /\ length (Client.messages joined) = 2%nat
  /\ length (Client.messages left) = 4%nat.
Proof.
  destruct (X14_presence_events Sample.provider Sample.client_env "u_2")
    as (Hin & Hout & _ & Hjoined & Hleft & _); [discriminate|].
  cbn zeta. split; [exact Hin|]. split; [exact Hout|].
  rewrite Hleft, Hjoined. by split.
Defined.

(** ** A message on its way round *)

Lemma append_not_empty (a b : string) : b <> "" -> a +:+ b <> "".
Proof. intros Hb. destruct a; [exact Hb | discriminate]. Qed.

Lemma toISOString_not_empty t : toISOString t <> "".
Proof. unfold toISOString. apply append_not_empty. discriminate. Qed.

Lemma or_else_nonempty (s : string) fallback :
  s <> "" -> or_else (JStr s) fallback = JStr s.
Proof.
  intros Hs. unfold or_else. cbn. by destruct (String.eqb_spec s "").
Qed.

Lemma set_messages_same st : Client.set_messages st (Client.messages st) = st.
Proof. by destruct st. Qed.

(** X15. What the server makes of a draft emitted by [sendMessage] is,
    field for field, the optimistic copy the client appended (the user id
    being non-empty): same temporary id, sender, name, text and creation
    time, and no conversation id.  So when that canonical message comes
    back, the message list is exactly what it was after sending, provided
    no earlier entry happened to carry the same temporary id. *)
Theorem X15_echo_of_own_message_changes_nothing st cenv body senv :
  Client.offline st = false ->
  Client.currentUserId st <> "" ->
  (forall m, m ∈ Client.messages st -> Client.id m <> Client.tempId cenv) ->
  let optimistic := Client.draft st cenv body in
  let sent := (Client.sendMessage st cenv body).1 in
  exists fields,
    (Client.sendMessage st cenv body).2 = [Client.Emit "event:message" (Client.encode optimistic)]
    /\ Server.messageObject senv (Client.encode optimistic) = Ok (JObj fields)
    /\ Client.decode (JObj fields) = Some optimistic
    /\ Client.messages sent = Client.messages st ++ [optimistic]
    /\ Client.onMessageReceived sent optimistic = sent.
Proof.
  intros Hon Huid Hfresh. cbn zeta.
  eexists. split; [unfold Client.sendMessage; by rewrite Hon|].
  split; [apply messageObject_of_object|].
  split.
  - cbn [Client.encode Client.draft Client.id Client.conversationId Client.senderId
         Client.senderName Client.text Client.createdAt Client.optional app assoc
         String.eqb Ascii.eqb Bool.eqb nullish].
    rewrite (or_else_nonempty (Client.currentUserId st)) by exact Huid.
    rewrite (or_else_nonempty (toISOString _)) by apply toISOString_not_empty.
    reflexivity.
  - unfold Client.sendMessage. rewrite Hon. cbn [fst Client.set_messages Client.messages].
    split; [reflexivity|].
    unfold Client.onMessageReceived, Client.set_messages. cbn.
    assert (Hhit : exists m, m ∈ Client.messages st ++ [Client.draft st cenv body]
                             /\ Client.id m = Client.id (Client.draft st cenv body)).
    { eexists. split; [|reflexivity]. apply elem_of_app. right. apply list_elem_of_here. }
    rewrite (reconcile_hit _ _ Hhit), fmap_app. cbn [fmap list_fmap].
    rewrite String.eqb_refl.
    replace (_ <$> Client.messages st) with (Client.messages st); [reflexivity|].
    rewrite <- (list_fmap_id (Client.messages st)) at 1.
    apply list_fmap_ext. intros i m Hi. cbn.
    destruct (String.eqb_spec (Client.id m) (Client.tempId cenv)) as [E|_]; [|reflexivity].
    destruct (Hfresh m); [|exact E]. by eapply list_elem_of_lookup_2.
Qed.

Lemma X15_echo_on_the_sample :
  let optimistic := Client.draft Sample.provider Sample.client_env "hi" in
  let sent := (Client.sendMessage Sample.provider Sample.client_env "hi").1 in
  exists fields,
    (Client.sendMessage Sample.provider Sample.client_env "hi").2
      = [Client.Emit "event:message" (Client.encode optimistic)]
    /\ Server.messageObject Sample.env (Client.encode optimistic) = Ok (JObj fields)
    /\ Client.decode (JObj fields) = Some optimistic
    /\ Client.messages sent = [optimistic]
    /\ Client.onMessageReceived sent optimistic = sent.
Proof.
  apply (X15_echo_of_own_message_changes_nothing Sample.provider Sample.client_env "hi"
           Sample.env).
  - reflexivity.
  - discriminate.
  - intros m Hm. by apply not_elem_of_nil in Hm.
Defined.

(** ** The identity of the user *)

Lemma present_not_empty v s : Identity.present v = Some s -> s <> "".
Proof.
  unfold Identity.present. destruct v as [x|]; [|discriminate].
  destruct (String.eqb_spec x ""); [discriminate|]. by intros [= <-].
Qed.

Lemma generateClientId_not_empty r : Identity.generateClientId r <> "".
Proof. discriminate. Qed.

Lemma initUserId_not_empty b first second : (Identity.initUserId b first second).1 <> "".
Proof.
  unfold Identity.initUserId.
  destruct (Identity.window b); [|apply generateClientId_not_empty].
  destruct (Identity.getItem_throws b); [apply generateClientId_not_empty|].
  destruct (Identity.present (Identity.chat_user_id b)) as [existing|] eqn:E.
  - cbn. by eapply present_not_empty.
  - destruct (Identity.setItem_throws b); apply generateClientId_not_empty.
Qed.

(** X16. The user id is never empty.  In a browser whose storage works,
    the id is stable across page loads: a stored id is used as it is and
    the storage is left alone; when none is stored, the generated id is
    stored, and the next load, whatever the clock and the random numbers
    then, yields the same id and the same storage.  Where the storage
    cannot be read, or not written, or there is no [window], a generated
    id is used and nothing is stored. *)
Theorem X16_user_id_is_stable_across_loads b first second first' second' b' :
  Identity.window b = true ->
  Identity.getItem_throws b = false ->
  Identity.setItem_throws b = false ->
  Identity.window b' = false \/ Identity.getItem_throws b' = true
    \/ Identity.setItem_throws b' = true ->
  let load := Identity.initUserId b first second in
  load.1 <> ""
  /\ Identity.initUserId load.2 first' second' = load
  /\ (forall existing, Identity.present (Identity.chat_user_id b) = Some existing ->
        load = (existing, b))
  /\ (Identity.present (Identity.chat_user_id b) = None ->
        load.1 = Identity.generateClientId first
        /\ Identity.chat_user_id load.2 = Some load.1)
  /\ (Identity.initUserId b' first second).1 <> ""
  /\ (Identity.present (Identity.chat_user_id b') = None
      \/ Identity.window b' = false \/ Identity.getItem_throws b' = true ->
      (Identity.initUserId b' first second).2 = b'
      /\ exists r, (Identity.initUserId b' first second).1 = Identity.generateClientId r).
Proof.
  intros Hwin Hget Hset Hbroken. cbn zeta.
  split; [apply initUserId_not_empty|].
  assert (Hload : Identity.initUserId b first second
                  = match Identity.present (Identity.chat_user_id b) with
                    | Some existing => (existing, b)
                    | None => (Identity.generateClientId first,
                               Identity.store_id b (Identity.generateClientId first))
                    end).
  { unfold Identity.initUserId. by rewrite Hwin, Hget, Hset. }
  rewrite Hload.
  split; [|split; [|split; [|split]]].
  - destruct (Identity.present (Identity.chat_user_id b)) as [existing|] eqn:E.
    + cbn [snd]. unfold Identity.initUserId. by rewrite Hwin, Hget, E.
    + cbn [snd]. unfold Identity.initUserId. cbn. rewrite Hwin, Hget. reflexivity.
  - intros existing ->. reflexivity.
  - intros ->. split; reflexivity.
  - apply initUserId_not_empty.
  - intros Hnone. unfold Identity.initUserId.
    destruct (Identity.window b') eqn:Ew; [|split; [reflexivity | eauto]].
    destruct (Identity.getItem_throws b') eqn:Eg; [split; [reflexivity | eauto]|].
    destruct Hnone as [Hnone|[?|?]]; try discriminate.
    rewrite Hnone.
    destruct Hbroken as [?|[?|Hs]]; try discriminate.
    rewrite Hs. split; [reflexivity | eauto].
Qed.

Lemma X16_first_load_then_refresh :
  let b := {| Identity.window := true; Identity.chat_user_id := None;
              Identity.chat_user_name := None;
              Identity.getItem_throws := false; Identity.setItem_throws := false |} in
  let r := {| Identity.now := 1700000000000; Identity.random36 := "0.4fzyo82mvyr" |} in
  let r' := {| Identity.now := 1700000999999; Identity.random36 := "0.9zzk" |} in
  let load := Identity.initUserId b r r in
  load.1 = "u_loyw3v28_4fzyo"
  /\ Identity.initUserId load.2 r' r' = load.
Proof.
  cbn zeta.
  destruct (X16_user_id_is_stable_across_loads
              {| Identity.window := true; Identity.chat_user_id := None;
                 Identity.chat_user_name := None;
                 Identity.getItem_throws := false; Identity.setItem_throws := false |}
              {| Identity.now := 1700000000000; Identity.random36 := "0.4fzyo82mvyr" |}
              {| Identity.now := 1700000000000; Identity.random36 := "0.4fzyo82mvyr" |}
              {| Identity.now := 1700000999999; Identity.random36 := "0.9zzk" |}
              {| Identity.now := 1700000999999; Identity.random36 := "0.9zzk" |}
              {| Identity.window := false; Identity.chat_user_id := None;
                 Identity.chat_user_name := None;
                 Identity.getItem_throws := false; Identity.setItem_throws := false |}
              eq_refl eq_refl eq_refl (or_introl eq_refl))
    as (_ & Hstable & _).
  split; [reflexivity | exact Hstable].
Defined.

Lemma slice_prefix_not_empty (s : string) n : s <> "" -> slice s 0 (S n) <> "".
Proof. destruct s; [done | discriminate]. Qed.

Lemma take_chars_length n s : (String.length (take_chars n s) <= n)%nat.
Proof.
  revert s. induction n as [|n IH]; intros s; [cbn; lia|].
  destruct s as [|c s]; cbn; [lia|]. specialize (IH s). lia.
Qed.

(** X17. The display name is never empty as long as the user id is not.
    In a browser, when a non-empty name is stored under [chat_user_name],
    that stored name is the display name; when none is stored, or there is
    no [window], it is the first six characters of the user id.  A
    [storage] event replaces it only when it is for the key
    [chat_user_name] and brings a non-empty value; an event for another
    key, or one that clears the value, leaves the name as it is. *)
Theorem X17_display_name_is_never_empty b currentUserId name key newValue :
  currentUserId <> "" ->
  Identity.initUserName b currentUserId = Ok name ->
  name <> ""
  /\ (Identity.window b = true ->
      forall saved, Identity.present (Identity.chat_user_name b) = Some saved ->
        name = saved)
  /\ (Identity.window b = false \/ Identity.present (Identity.chat_user_name b) = None ->
      name = slice currentUserId 0 6 /\ (String.length name <= 6)%nat)
  /\ Identity.handleStorageChange name key newValue <> ""
  /\ (key <> Some "chat_user_name" \/ Identity.present newValue = None ->
      Identity.handleStorageChange name key newValue = name)
  /\ (forall value, value <> "" ->
        Identity.handleStorageChange name (Some "chat_user_name") (Some value) = value).
Proof.
  intros Hid Hinit.
  assert (Hslice : slice currentUserId 0 6 <> ""
                   /\ (String.length (slice currentUserId 0 6) <= 6)%nat).
  { split; [by apply slice_prefix_not_empty | apply take_chars_length]. }
  assert (Hname : name <> ""
            /\ (Identity.window b = true ->
                forall saved, Identity.present (Identity.chat_user_name b) = Some saved ->
                  name = saved)
            /\ (Identity.window b = false
                \/ Identity.present (Identity.chat_user_name b) = None ->
                name = slice currentUserId 0 6 /\ (String.length name <= 6)%nat)).
  { unfold Identity.initUserName in Hinit.
    destruct (Identity.window b).
    - destruct (Identity.getItem_throws b); [discriminate|].
      destruct (Identity.present (Identity.chat_user_name b)) as [saved|] eqn:E.
      + injection Hinit as <-. split; [by eapply present_not_empty|]. split.
        * by intros _ saved' [= <-].
        * intros [?|?]; discriminate.
      + injection Hinit as <-. split; [apply Hslice|]. split.
        * intros _ saved' ?; discriminate.
        * intros _. split; [reflexivity | apply Hslice].
    - injection Hinit as <-. split; [apply Hslice|]. split.
      + intros ?; discriminate.
      + intros _. split; [reflexivity | apply Hslice]. }
  destruct Hname as (Hne & Hsaved & Hfresh).
  split; [exact Hne|]. split; [exact Hsaved|]. split; [exact Hfresh|]. split; [|split].
  - unfold Identity.handleStorageChange. destruct key as [k|]; [|exact Hne].
    destruct (Identity.present newValue) as [v|] eqn:E; [|exact Hne].
    destruct (String.eqb k "chat_user_name"); [by eapply present_not_empty | exact Hne].
  - intros Hother. unfold Identity.handleStorageChange.
    destruct key as [k|]; [|reflexivity].
    destruct Hother as [Hk| ->]; [|reflexivity].
    destruct (Identity.present newValue); [|reflexivity].
    destruct (String.eqb_spec k "chat_user_name") as [->|_]; [by destruct Hk | reflexivity].
  - intros value Hvalue. unfold Identity.handleStorageChange, Identity.present.
    by destruct (String.eqb_spec value "").
Qed.

Lemma X17_name_of_a_fresh_user :
  (forall saved, Identity.present (Some "alice") = Some saved -> "alice" = saved)
  /\ ("u_loyw" = slice "u_loyw3v28_4fzyo" 0 6 /\ (String.length "u_loyw" <= 6)%nat)
  /\ Identity.handleStorageChange "u_loyw" (Some "theme") (Some "dark") = "u_loyw".
Proof.
  destruct (X17_display_name_is_never_empty
              {| Identity.window := true; Identity.chat_user_id := Some "u_loyw3v28_4fzyo";
                 Identity.chat_user_name := Some "alice";
                 Identity.getItem_throws := false; Identity.setItem_throws := false |}
              "u_loyw3v28_4fzyo" "alice" (Some "theme") (Some "dark"))
    as (_ & Hsaved & _); [discriminate | reflexivity |].
  destruct (X17_display_name_is_never_empty
              {| Identity.window := true; Identity.chat_user_id := Some "u_loyw3v28_4fzyo";
                 Identity.chat_user_name := None;
                 Identity.getItem_throws := false; Identity.setItem_throws := false |}
              "u_loyw3v28_4fzyo" "u_loyw" (Some "theme") (Some "dark"))
    as (_ & _ & Hfresh & _ & Hother & _); [discriminate | reflexivity |].
  split; [exact (Hsaved eq_refl)|]. split; [apply Hfresh; by right|].
  apply Hother. left. discriminate.
Defined.

(** ** The chat page *)

Lemma trimEnd_keeps_head c rest :
  is_space c = false -> exists rest', trimEnd (String c rest) = String c rest'.
Proof.
  intros Hc. cbn. destruct (trimEnd rest); [rewrite Hc|]; eauto.
Qed.

Lemma trimEnd_idempotent s : trimEnd (trimEnd s) = trimEnd s.
Proof.
  induction s as [|c s IH]; [reflexivity|].
  cbn. destruct (trimEnd s) as [|k kept] eqn:E.
  - destruct (is_space c) eqn:Hc; [reflexivity|]. cbn. by rewrite Hc.
  - change (trimEnd (String c (String k kept))) with
      (match trimEnd (String k kept) with
       | EmptyString => if is_space c then EmptyString else String c EmptyString
       | kept' => String c kept'
       end).
    by rewrite IH.
Qed.

Lemma trim_idempotent s : trim (trim s) = trim s.
Proof.
  unfold trim. destruct (trimStart s) as [|c rest] eqn:E; [reflexivity|].
  pose proof (trimStart_head _ _ _ E) as Hc.
  destruct (trimEnd_keeps_head c rest Hc) as [rest' Hkeep].
  rewrite Hkeep. cbn [trimStart]. rewrite Hc, <- Hkeep. apply trimEnd_idempotent.
Qed.

Lemma trim_not_blank s : blank s = false -> blank (trim s) = false /\ trim s <> "".
Proof.
  intros Hs.
  assert (Hne : trim s <> "").
  { intros E. apply trim_blank in E. congruence. }
  split; [|exact Hne].
  unfold trim in *. destruct (trimStart s) as [|c rest] eqn:E; [done|].
  pose proof (trimStart_head _ _ _ E) as Hc.
  destruct (trimEnd_keeps_head c rest Hc) as [rest' ->]. cbn. by rewrite Hc.
Qed.

(** X18. When the page shows the connection as up, the socket is
    connected, a name is known and the input is not blank, [handleSend]
    sends: it appends one optimistic entry, emits one [event:message] with
    that entry and clears the input.  The text sent is the input trimmed:
    it is never blank and has no white space at either end (trimming it
    again changes nothing). *)
Theorem X18_send_from_the_page st p env :
  Client.connected st = true ->
  Client.offline st = false ->
  Client.username p <> "" \/ Client.stored_name_set p = true ->
  blank (Client.message p) = false ->
  exists m,
    Client.handleSend st p env
    = (Client.set_messages st (Client.messages st ++ [m]),
       Ui.set_message p "",
       [Client.Emit "event:message" (Client.encode m)])
    /\ Client.text m = trim (Client.message p)
    /\ blank (Client.text m) = false
    /\ trim (Client.text m) = Client.text m
    /\ Client.senderId m = Client.currentUserId st.
Proof.
  intros Hconn Hon Hname Hinput.
  destruct (trim_not_blank _ Hinput) as [Hblank Hne].
  exists (Client.draft st env (trim (Client.message p))).
  split; [|split; [reflexivity|split; [exact Hblank|split; [apply trim_idempotent|reflexivity]]]].
  unfold Client.handleSend.
  destruct (String.eqb_spec (trim (Client.message p)) ""); [contradiction|].
  rewrite Hconn. cbn [negb].
  replace (String.eqb (Client.username p) "" && negb (Client.stored_name_set p)) with false.
  - unfold Client.sendMessage. rewrite Hon. reflexivity.
  - destruct Hname as [Hu|Hs].
    + by destruct (String.eqb_spec (Client.username p) "").
    + rewrite Hs. cbn. by rewrite andb_false_r.
Qed.

Lemma X18_padded_input_is_sent_trimmed :
  exists m,
    Client.handleSend Sample.provider (Sample.page "  hi there ") Sample.client_env
    = (Client.set_messages Sample.provider [m],
       Sample.page "",
       [Client.Emit "event:message" (Client.encode m)])
    /\ Client.text m = "hi there"
    /\ blank (Client.text m) = false
    /\ trim (Client.text m) = Client.text m
    /\ Client.senderId m = "u_1".
Proof.
  apply (X18_send_from_the_page Sample.provider (Sample.page "  hi there ") Sample.client_env).
  - reflexivity.
  - reflexivity.
  - left. discriminate.
  - reflexivity.
Defined.

(** X19. Choosing a name.  [handleSetUsername] ignores a blank name:
    nothing is stored and the page is not reloaded.  A name that is not
    blank is stored trimmed and the page reloads; the page that mounts
    after the reload finds the stored name, takes it as the user name and
    shows no prompt, and [handleSend] on it never asks for a name again. *)
Theorem X19_chosen_name_survives_the_reload p st env input :
  blank (Client.username p) = false ->
  let chosen := Ui.handleSetUsername p in
  let reloaded := Ui.mount (Client.chat_user_name chosen.1) in
  chosen.2 = [Client.Reload]
  /\ Client.chat_user_name chosen.1 = Some (trim (Client.username p))
  /\ reloaded = {| Client.message := ""; Client.username := trim (Client.username p);
                   Client.showNamePrompt := false;
                   Client.chat_user_name := Some (trim (Client.username p)) |}
  /\ Client.showNamePrompt (Client.handleSend st (Ui.set_message reloaded input) env).1.2 = false
  /\ (forall q, blank (Client.username q) = true -> Ui.handleSetUsername q = (q, [])).
Proof.
  intros Hname. cbn zeta.
  destruct (trim_not_blank _ Hname) as [_ Hne].
  assert (Hchosen : Ui.handleSetUsername p
                    = ({| Client.message := Client.message p;
                          Client.username := trim (Client.username p);
                          Client.showNamePrompt := false;
                          Client.chat_user_name := Some (trim (Client.username p)) |},
                       [Client.Reload])).
  { unfold Ui.handleSetUsername. by destruct (String.eqb_spec (trim (Client.username p)) ""). }
  rewrite Hchosen. cbn [fst snd Client.chat_user_name].
  assert (Hmount : Ui.mount (Some (trim (Client.username p)))
                   = {| Client.message := ""; Client.username := trim (Client.username p);
                        Client.showNamePrompt := false;
                        Client.chat_user_name := Some (trim (Client.username p)) |}).
  { unfold Ui.mount, Identity.present.
    by destruct (String.eqb_spec (trim (Client.username p)) ""). }
  rewrite Hmount.
  split; [reflexivity|]. split; [reflexivity|]. split; [reflexivity|]. split.
  - unfold Client.handleSend, Ui.set_message. cbn [Client.message Client.username
      Client.showNamePrompt Client.chat_user_name].
    destruct (String.eqb (trim input) ""); [reflexivity|].
    destruct (negb (Client.connected st)); [reflexivity|].
    destruct (String.eqb_spec (trim (Client.username p)) ""); [contradiction|].
    cbn [andb]. by destruct (Client.sendMessage st env (trim input)).
  - intros q Hq. apply trim_blank in Hq. unfold Ui.handleSetUsername. by rewrite Hq.
Qed.

Lemma X19_name_with_spaces_is_stored_trimmed :
  let p := {| Client.message := ""; Client.username := " bob  ";
              Client.showNamePrompt := true; Client.chat_user_name := None |} in
  (Ui.handleSetUsername p).2 = [Client.Reload]
  /\ Client.chat_user_name (Ui.handleSetUsername p).1 = Some "bob"
  /\ Client.username (Ui.mount (Client.chat_user_name (Ui.handleSetUsername p).1)) = "bob".
Proof.
  destruct (X19_chosen_name_survives_the_reload
              {| Client.message := ""; Client.username := " bob  ";
                 Client.showNamePrompt := true; Client.chat_user_name := None |}
              Sample.provider Sample.client_env "hi" eq_refl)
    as (Hreload & Hstored & Hmount & _).
  cbn zeta. split; [exact Hreload|]. split; [exact Hstored|].
  rewrite Hmount. reflexivity.
Defined.

Lemma code_bounds c : 0 <= code c <= 255.
Proof.
  unfold code. pose proof (nat_ascii_bounded c). lia.
Qed.

Lemma to_int32_bounds z : - 2 ^ 31 <= Ui.to_int32 z < 2 ^ 31.
Proof.
  unfold Ui.to_int32. pose proof (Z.mod_pos_bound (z + 2 ^ 31) (2 ^ 32)). lia.
Qed.

Lemma hash_from_bound str : forall hash,
  Z.abs (Ui.hash_from hash str)
  <= Z.abs hash + Z.of_nat (String.length str) * (2 ^ 31 + 255).
Proof.
  induction str as [|c rest IH]; intros hash; [cbn; lia|].
  cbn [Ui.hash_from String.length]. specialize (IH (code c + (Ui.shl5 hash - hash))).
  pose proof (code_bounds c). pose proof (to_int32_bounds (Ui.to_int32 hash * 32)).
  unfold Ui.shl5 in *. lia.
Qed.

(** X20. In [stringToColor] the running hash after [n] characters is at
    most [n * (2^31 + 255)] in absolute value (the shift wraps to 32 bits,
    the subtraction does not), so for a string of fewer than 2^21
    characters it stays below 2^53, where number arithmetic is exact.  The
    hue lies strictly between -360 and 360 and has the sign of the hash:
    it can be negative. *)
Theorem X20_color_hash_and_hue_bounds str :
  let hash := Ui.hash_from 0 str in
  Z.abs hash <= Z.of_nat (String.length str) * (2 ^ 31 + 255)
  /\ (Z.of_nat (String.length str) < 2 ^ 21 -> Z.abs hash < 2 ^ 53)
  /\ -360 < Ui.hue str < 360
  /\ (0 <= hash -> 0 <= Ui.hue str)
  /\ (hash <= 0 -> Ui.hue str <= 0)
  /\ Ui.hue "system" = -209.
Proof.
  cbn zeta. pose proof (hash_from_bound str 0) as Hb. cbn [Z.abs] in Hb.
  split; [lia|]. split; [intros Hlen; nia|].
  unfold Ui.hue.
  split.
  - assert (Z.abs (Z.rem (Ui.hash_from 0 str) 360) < Z.abs 360)
      by (apply Z.rem_bound_abs; lia).
    lia.
  - split; [|split; [|reflexivity]].
    + intros Hpos. apply Z.rem_nonneg; lia.
    + intros Hneg. apply Z.rem_nonpos; lia.
Qed.

(** ** Losing and regaining the connection *)


